(** * Ice-core resampler: binning engine and sparse-region detector

    A shallow embedding of [Resample.py] (and of the older
    [scripts/Resample.py]) together with the properties its specification
    states about them.

    Numbers.  The program computes on Python/NumPy floats.  They are modelled
    by exact rationals [Q]; a missing value (NaN) is [None].  Equality of
    numbers is [Qeq] ([==]), the program's [==] is [Qeq_bool].  Rounding and
    infinities are outside the model.

    Objects.  pandas tables are immutable values here (every pandas call the
    program makes returns a new table).  Python lists that are mutated in
    place live in a heap of list objects, addressed by references.

    Collaborators.  The grid generator [frange] of [scripts/func.py] is not
    among the sources: it is modelled for positive increments and is a
    parameter of [resample_with].  The output step, which works on the file
    system, is a parameter of the batch. *)

From Stdlib Require Import QArith Qround Lqa Lia List Ascii String ZArith Bool Sorted.
From stdpp Require Import gmap.
Import ListNotations.
Open Scope Q_scope.

(** ** Numeric helpers *)

(** Python's [int(x)] on a float: truncation toward zero. *)
Definition py_int (x : Q) : Z := Z.quot (Qnum x) (Zpos (Qden x)).

(** [a < b] on numbers, as a boolean. *)
Definition Qlt_bool (a b : Q) : bool := negb (Qle_bool b a).

(** A possibly missing number: [None] is NaN. *)
Definition value : Type := option Q.

(** ** The heap of Python list objects *)

Definition loc : Type := positive.

(** A computation on the heap; [None] is an uncaught run-time error
    (a dangling reference or an [IndexError]). *)
Definition M (A : Type) : Type := gmap loc (list Q) -> option (A * gmap loc (list Q)).

Definition ret {A} (a : A) : M A := fun h => Some (a, h).

Definition bind {A B} (m : M A) (k : A -> M B) : M B :=
  fun h => match m h with
           | Some (a, h') => k a h'
           | None => None
           end.

Notation "'do' x <~ m 'in' k" := (bind m (fun x => k))
  (at level 10, x name, m at level 100, k at level 200).

(** [xs.reverse()]: reverses the list object in place. *)
Definition list_reverse (l : loc) : M unit :=
  fun h => match h !! l with
           | Some xs => Some (tt, <[l := rev xs]> h)
           | None => None
           end.

(** [len(xs)] *)
Definition list_len (l : loc) : M nat :=
  fun h => match h !! l with
           | Some xs => Some (length xs, h)
           | None => None
           end.

(** [xs[i]] for [0 <= i]; out of range raises. *)
Definition list_get (l : loc) (i : nat) : M Q :=
  fun h => match h !! l with
           | Some xs => match xs !! i with
                        | Some x => Some (x, h)
                        | None => None
                        end
           | None => None
           end.

(** [xs.append(x)] *)
Definition list_append (l : loc) (x : Q) : M unit :=
  fun h => match h !! l with
           | Some xs => Some (tt, <[l := xs ++ [x]]> h)
           | None => None
           end.

(** ** [check_resample] *)

(** The body of [for i in range(1, len(n_idx)-1)], over the remaining
    indices [idxs] and the current counter [z]. *)
Fixpoint check_loop (n_idx : loc) (inc_amt : Q) (idxs : list nat) (z : nat)
  : M (option Q) :=
  match idxs with
  | [] => ret None
  | i :: rest =>
      do a <~ list_get n_idx i in
      do b <~ list_get n_idx (i - 1) in
      if Qeq_bool (a + inc_amt) b then
        let z := (z + 1)%nat in
        if (z =? 5)%nat then
          (do stop_point <~ list_get n_idx i in
           ret (Some stop_point))
        else check_loop n_idx inc_amt rest z
      else check_loop n_idx inc_amt rest z
  end.

(** [range(1, n - 1)] for a length [n]. *)
Definition loop_indices (n : nat) : list nat := seq 1 (n - 1 - 1).

Definition check_resample (n_idx : loc) (inc_amt : Q) : M (option Q) :=
  do _ <~ list_reverse n_idx in
  do n <~ list_len n_idx in
  check_loop n_idx inc_amt (loop_indices n) 0.

(** *** The scan, as a function of the reversed list *)

(** Is position [i] of [r] one increment below position [i-1]? *)
Definition is_step (inc_amt : Q) (r : list Q) (i : nat) : bool :=
  match r !! i, r !! (i - 1)%nat with
  | Some a, Some b => Qeq_bool (a + inc_amt) b
  | _, _ => false
  end.

(** The positions among [idxs] at which the counter is incremented. *)
Definition step_positions (inc_amt : Q) (r : list Q) (idxs : list nat) : list nat :=
  List.filter (is_step inc_amt r) idxs.

(** The entry at the position where the counter, started at [z], becomes 5. *)
Definition fifth_step (inc_amt : Q) (r : list Q) (idxs : list nat) (z : nat)
  : option Q :=
  match nth_error (step_positions inc_amt r idxs) (4 - z) with
  | Some i => r !! i
  | None => None
  end.

(** The stop point the scan positions [1 .. length - 2] give. *)
Definition stop_point_of (inc_amt : Q) (r : list Q) : option Q :=
  fifth_step inc_amt r (loop_indices (length r)) 0.

(** The value of a counter that walks positions [1 .. i] of [r], goes up by
    one at every step position and is never reset. *)
Definition count_steps (inc_amt : Q) (r : list Q) (i : nat) : nat :=
  length (step_positions inc_amt r (seq 1 i)).

(** The walk over every adjacent pair, positions [1 .. length - 1], as the
    specification words it: the position at which the counter reaches 5. *)
Definition fifth_step_all_pairs (inc_amt : Q) (r : list Q) : option nat :=
  nth_error (step_positions inc_amt r (seq 1 (length r - 1))) 4.

(** ** Tables *)

(** A pandas [DataFrame]: the name of its index, its column names, and its
    rows, each an index label with the cells in column order. *)
Record DataFrame : Type := mkDataFrame {
  index_name : option string;
  columns : list string;
  rows : list (value * list value)
}.

Definition keys (df : DataFrame) : list value := map fst (rows df).

(** The non-missing entries of a sequence ([skipna]). *)
Fixpoint present (vs : list value) : list Q :=
  match vs with
  | [] => []
  | Some q :: vs' => q :: present vs'
  | None :: vs' => present vs'
  end.

Definition Qmin_bool (a b : Q) : Q := if Qle_bool a b then a else b.
Definition Qmax_bool (a b : Q) : Q := if Qle_bool a b then b else a.

(** [df.index.min()] and [df.index.max()]: NaN when no label is present. *)
Definition index_min (df : DataFrame) : value :=
  match present (keys df) with
  | [] => None
  | k :: ks => Some (fold_left Qmin_bool ks k)
  end.

Definition index_max (df : DataFrame) : value :=
  match present (keys df) with
  | [] => None
  | k :: ks => Some (fold_left Qmax_bool ks k)
  end.

(** Position of a column name. *)
Fixpoint col_pos (by_ : string) (cols : list string) : option nat :=
  match cols with
  | [] => None
  | c :: cols' => if String.eqb c by_ then Some O
                  else option_map S (col_pos by_ cols')
  end.

Definition remove_nth {A} (j : nat) (l : list A) : list A :=
  firstn j l ++ skipn (S j) l.

(** pandas [df.set_index(by)]: the column becomes the index and leaves the
    columns; [None] is its [KeyError]. *)
Definition pd_set_index (df : DataFrame) (by_ : string) : option DataFrame :=
  match col_pos by_ (columns df) with
  | None => None
  | Some j =>
      Some {| index_name := Some by_;
              columns := remove_nth j (columns df);
              rows := map (fun r => (nth j (snd r) None, remove_nth j (snd r)))
                          (rows df) |}
  end.

Definition index_name_is (df : DataFrame) (by_ : string) : bool :=
  match index_name df with
  | Some n => String.eqb n by_
  | None => false
  end.

Definition not_found_message (by_ : string) : string :=
  (by_ ++ " is not found as a column in the dataset, insert name of column to resample data by")%string.

(** [set_index]: the table it returns and the lines it prints. *)
Definition set_index (df : DataFrame) (by_ : string) : DataFrame * list string :=
  if negb (index_name_is df by_) then
    match pd_set_index df by_ with
    | Some df' => (df', [])
    | None => (df, [not_found_message by_])
    end
  else (df, []).

(** ** Windows and means *)

(** [lo <= k < hi] on an index label; comparisons with NaN are false. *)
Definition in_window (lo hi : Q) (k : value) : bool :=
  match k with
  | Some k => Qle_bool lo k && Qlt_bool k hi
  | None => false
  end.

(** [df[(df.index >= i-inc) & (df.index < i+inc)]] *)
Definition window (df : DataFrame) (i inc : Q) : list (value * list value) :=
  List.filter (fun r => in_window (i - inc) (i + inc) (fst r)) (rows df).

Definition Qsum (l : list Q) : Q := fold_left Qplus l 0.

(** The mean of a column, missing values skipped; NaN when none is left. *)
Definition mean (vs : list value) : value :=
  match present vs with
  | [] => None
  | p => Some (Qsum p / inject_Z (Z.of_nat (length p)))
  end.

Definition column (j : nat) (rs : list (value * list value)) : list value :=
  map (fun r => nth j (snd r) None) rs.

(** [idx.mean()]: one mean per column of the table. *)
Definition frame_mean (df : DataFrame) (idx : list (value * list value))
  : list value :=
  map (fun j => mean (column j idx)) (seq 0 (length (columns df))).

Definition isnull (v : value) : bool :=
  match v with None => true | Some _ => false end.

(** [s.isnull().all()] *)
Definition all_null (row : list value) : bool := forallb isnull row.

(** ** Grid generation *)

(** Modelled from the spec: the [i]-th point of the grid of [frange]
    ([scripts/func.py], which is not among the sources).  Section 4.1: the
    grid starts at [top] and steps by the increment, counting steps rather
    than adding repeatedly. *)
Definition grid_point (top : Z) (inc_amt : Q) (i : nat) : Q :=
  inject_Z top + inject_Z (Z.of_nat i) * inc_amt.

(** Modelled from the spec: the loop of [frange], from the [i]-th point
    on.  Section 4.1: generation continues while the point is at most
    [bot].  [fuel] bounds the number of loop tests; [None] means that the
    generator is still running when the fuel is spent.  Section 4.1
    describes the generator for a positive increment; for another
    increment this loop is not taken from it, and what [resample] does
    there is stated over [resample_with], for any generator. *)
Fixpoint frange_from (fuel : nat) (i : nat) (top bot : Z) (inc_amt : Q)
  : option (list Q) :=
  match fuel with
  | O => None
  | S fuel' =>
      let x := grid_point top inc_amt i in
      if Qle_bool x (inject_Z bot) then
        option_map (cons x) (frange_from fuel' (S i) top bot inc_amt)
      else Some []
  end.

(** Modelled from the spec: [list(frange(top, bot, inc_amt))], the missing
    grid generator of [scripts/func.py] as section 4.1 describes it. *)
Definition frange (fuel : nat) (top bot : Z) (inc_amt : Q) : option (list Q) :=
  frange_from fuel 0 top bot inc_amt.

(** The number of grid points for a positive increment. *)
Definition grid_size (top bot : Z) (inc_amt : Q) : nat :=
  if (top <=? bot)%Z
  then S (Z.to_nat (Qfloor ((inject_Z bot - inject_Z top) / inc_amt)))
  else O.

(** ** [resample] *)

(** The exceptions of the code's own steps, and any other exception a
    collaborator may raise. *)
Inductive exn : Type :=
| ValueError
| IndexError
| KeyError
| OtherError (what : string).

(** How a call ends: with a value, with an uncaught exception, or not
    within the fuel given. *)
Inductive outcome (A : Type) : Type :=
| Ok (a : A)
| Raise (e : exn)
| Timeout.
Arguments Ok {A} a.
Arguments Raise {A} e.
Arguments Timeout {A}.

(** The [for i in range_list] loop: [df_new] is rebound, the list object
    [n_idx] is appended to. *)
Fixpoint resample_loop (df : DataFrame) (inc : Q) (n_idx : loc)
    (range_list : list Q) (df_new : list (list value)) : M (list (list value)) :=
  match range_list with
  | [] => ret df_new
  | i :: rest =>
      let idx := window df i inc in
      let df_new := df_new ++ [frame_mean df idx] in
      if all_null (frame_mean df idx) then
        do _ <~ list_append n_idx i in
        resample_loop df inc n_idx rest df_new
      else resample_loop df inc n_idx rest df_new
  end.

(** Does an index label equal [c]? *)
Definition label_is (c : Q) (k : value) : bool :=
  match k with
  | Some k => Qeq_bool k c
  | None => false
  end.

(** [df.loc[:c]] on a table whose labels are distinct: the rows through the
    one labelled [c]; [None] when no row is. *)
Fixpoint upto_label (c : Q) (rs : list (value * list value))
  : option (list (value * list value)) :=
  match rs with
  | [] => None
  | r :: rest =>
      if label_is c (fst r) then Some [r]
      else option_map (cons r) (upto_label c rest)
  end.

(** [df.loc[:end]]; [end] is [None] when [check_resample] fell through. *)
Definition loc_upto (end_ : option Q) (rs : list (value * list value))
  : option (list (value * list value)) :=
  match end_ with
  | None => Some rs
  | Some c => upto_label c rs
  end.

(** The first lines of [resample]: [top], [bot] and [range_list].
    [int(nan)] raises [ValueError]. *)
Definition resample_range (fuel : nat) (df : DataFrame) (inc_amt : Q)
  : outcome (list Q) :=
  match index_min df, index_max df with
  | Some lo, Some hi =>
      let top := py_int lo in
      let bot := py_int hi in
      match frange fuel top bot inc_amt with
      | Some range_list => Ok range_list
      | None => Timeout
      end
  | _, _ => Raise ValueError
  end.

(** Lines 184-202 of [resample], for a given [range_list]; next to the
    table the locals [range_list] and [end] are returned.  The list [n_idx]
    is a fresh object of a heap that does not outlive the call.  A table to
    which no row was appended has no columns. *)
Definition resample_body (df : DataFrame) (by_ : string) (inc_amt : Q)
    (range_list : list Q) : outcome (DataFrame * (list Q * option Q)) :=
  let inc := inc_amt / 2 in
  let n_idx := 1%positive in
  match (do df_new <~ resample_loop df inc n_idx range_list [] in
         do end_ <~ check_resample n_idx inc_amt in
         ret (df_new, end_)) {[ n_idx := [] ]} with
  | None => Raise IndexError
  | Some ((df_new, end_), _) =>
      let cols := match df_new with [] => [] | _ :: _ => columns df end in
      let df_new := combine (map Some range_list) df_new in
      let df_new := rev df_new in
      match loc_upto end_ df_new with
      | None => Raise KeyError
      | Some rs =>
          Ok ({| index_name := Some by_;
                 columns := cols;
                 rows := rs |}, (range_list, end_))
      end
  end.

(** [resample] over any grid generator: [gen top bot inc_amt] is what
    [list(frange(top, bot, inc_amt))] does, a list, an exception, or no
    return.  [int(nan)] raises [ValueError]. *)
Definition resample_with (gen : Z -> Z -> Q -> outcome (list Q))
    (df : DataFrame) (by_ : string) (inc_amt : Q)
  : outcome (DataFrame * (list Q * option Q)) :=
  match index_min df, index_max df with
  | Some lo, Some hi =>
      let top := py_int lo in
      let bot := py_int hi in
      match gen top bot inc_amt with
      | Ok range_list => resample_body df by_ inc_amt range_list
      | Raise e => Raise e
      | Timeout => Timeout
      end
  | _, _ => Raise ValueError
  end.

(** [frange] as a generator, within the fuel given. *)
Definition frange_gen (fuel : nat) (top bot : Z) (inc_amt : Q)
  : outcome (list Q) :=
  match frange fuel top bot inc_amt with
  | Some range_list => Ok range_list
  | None => Timeout
  end.

(** [resample] with the generator [frange]. *)
Definition resample_trace (fuel : nat) (df : DataFrame) (by_ : string)
    (inc_amt : Q) : outcome (DataFrame * (list Q * option Q)) :=
  match resample_range fuel df inc_amt with
  | Ok range_list => resample_body df by_ inc_amt range_list
  | Raise e => Raise e
  | Timeout => Timeout
  end.

Definition resample (fuel : nat) (df : DataFrame) (by_ : string) (inc_amt : Q)
  : outcome DataFrame :=
  match resample_trace fuel df by_ inc_amt with
  | Ok (t, _) => Ok t
  | Raise e => Raise e
  | Timeout => Timeout
  end.

(** *** What the loop computes *)

(** The output row of grid point [g]. *)
Definition resampled_row (df : DataFrame) (inc_amt g : Q) : list value :=
  frame_mean df (window df g (inc_amt / 2)).

(** The grid points whose row is missing in every field, in grid order. *)
Definition empty_window_grid_points (df : DataFrame) (inc_amt : Q)
    (grid : list Q) : list Q :=
  List.filter (fun g => all_null (resampled_row df inc_amt g)) grid.

(** The table of all grid rows, after the reversal and before [loc]. *)
Definition full_table (df : DataFrame) (inc_amt : Q) (grid : list Q)
  : list (value * list value) :=
  rev (combine (map Some grid) (map (resampled_row df inc_amt) grid)).


(** Strictly decreasing index labels, all present. *)
Definition label_gt (a b : value) : Prop :=
  match a, b with
  | Some x, Some y => y < x
  | _, _ => False
  end.

(** Equality of tables up to [==] on numbers. *)
Definition value_eq (a b : value) : Prop :=
  match a, b with
  | Some x, Some y => x == y
  | None, None => True
  | _, _ => False
  end.

Definition row_eq (r s : value * list value) : Prop :=
  value_eq (fst r) (fst s) /\ Forall2 value_eq (snd r) (snd s).

(** The rows of a table of one data column, from its keys and its data. *)
Definition one_column (ks vs : list Q) : list (value * list value) :=
  combine (map Some ks) (map (fun v => [Some v]) vs).

(** The table lies on the grid from the integer [m]: its [i]-th record has
    the key [m + i * inc_amt] and one cell per column. *)
Definition on_grid (df : DataFrame) (m : Z) (inc_amt : Q) : Prop :=
  forall i r,
    nth_error (rows df) i = Some r ->
    (exists k, fst r = Some k /\ k == grid_point m inc_amt i)
    /\ length (snd r) = length (columns df).

(** ** [set_resample] *)

(** What a batch leaves behind: the lines [set_index] printed and the
    tables written, each with its column and increment. *)
Record batch_log : Type := mkLog {
  printed : list string;
  written : list (string * Q * DataFrame)
}.

(** What follows [resample] in a request (lines 323-324):
    [create_output_filename_and_folders(b, i, name)] makes the folders and
    [output(resampled, raw_data, outfile)] writes one CSV and two PDF files.
    They work on the file system and are a parameter of the batch:
    [out name b i resampled raw_data] is how the two calls end. *)
Definition writer : Type :=
  string -> string -> Q -> DataFrame -> DataFrame -> outcome unit.

(** One pass of the inner loop body; a table is logged as written when
    the writer returns. *)
Definition resample_request (out : writer) (fuel : nat)
    (raw_data_input : DataFrame) (name b : string) (i : Q) (log : batch_log)
  : outcome batch_log :=
  let '(raw_data, msgs) := set_index raw_data_input b in
  match resample fuel raw_data b i with
  | Ok resampled =>
      match out name b i resampled raw_data with
      | Ok _ =>
          Ok {| printed := printed log ++ msgs;
                written := written log ++ [(b, i, resampled)] |}
      | Raise e => Raise e
      | Timeout => Timeout
      end
  | Raise e => Raise e
  | Timeout => Timeout
  end.

(** [for i in inc_amt] *)
Fixpoint set_resample_incs (out : writer) (fuel : nat)
    (raw_data_input : DataFrame) (name b : string) (inc_amt : list Q)
    (log : batch_log) : outcome batch_log :=
  match inc_amt with
  | [] => Ok log
  | i :: rest =>
      match resample_request out fuel raw_data_input name b i log with
      | Ok log' => set_resample_incs out fuel raw_data_input name b rest log'
      | Raise e => Raise e
      | Timeout => Timeout
      end
  end.

(** [for b in by] *)
Fixpoint set_resample_from (out : writer) (fuel : nat)
    (raw_data_input : DataFrame) (name : string) (by_ : list string)
    (inc_amt : list Q) (log : batch_log) : outcome batch_log :=
  match by_ with
  | [] => Ok log
  | b :: rest =>
      match set_resample_incs out fuel raw_data_input name b inc_amt log with
      | Ok log' =>
          set_resample_from out fuel raw_data_input name rest inc_amt log'
      | Raise e => Raise e
      | Timeout => Timeout
      end
  end.

Definition set_resample (out : writer) (fuel : nat)
    (raw_data_input : DataFrame) (by_ : list string) (inc_amt : list Q)
    (name : string) : outcome batch_log :=
  set_resample_from out fuel raw_data_input name by_ inc_amt
    {| printed := []; written := [] |}.

(** ** The older [scripts/Resample.py] *)

Module Scripts.

(** Python's [range(start, stop, step)]; [None] is the [ValueError] for a
    zero step. *)
Definition py_range (start stop step : Z) : option (list Z) :=
  if (step =? 0)%Z then None
  else
    let n :=
      if (0 <? step)%Z then
        if (start <? stop)%Z then ((stop - start - 1) / step + 1)%Z else 0%Z
      else
        if (stop <? start)%Z then ((start - stop - 1) / (- step) + 1)%Z else 0%Z
    in Some (map (fun i => (start + Z.of_nat i * step)%Z) (seq 0 (Z.to_nat n))).

(** The [for i in range_list] loop. *)
Fixpoint resample_loop (df : DataFrame) (inc : Q) (range_list : list Z)
    (df_new : list (list value)) : list (list value) :=
  match range_list with
  | [] => df_new
  | i :: rest =>
      let idx := window df (inject_Z i) inc in
      resample_loop df inc rest (df_new ++ [frame_mean df idx])
  end.

(** [resample(df, inc_amt, by)]: what it returns and the lines it prints.
    A table to which no row was appended has no columns. *)
Definition resample (df : DataFrame) (inc_amt : Z) (by_ : string)
  : outcome DataFrame * list string :=
  let '(df, msgs) :=
    match pd_set_index df by_ with
    | Some df' => (df', [])
    | None => (df, [not_found_message by_])
    end in
  match index_min df, index_max df with
  | Some lo, Some hi =>
      let top := py_int lo in
      let bot := py_int hi in
      let inc := inject_Z inc_amt / 2 in
      match py_range top bot inc_amt with
      | None => (Raise ValueError, msgs)
      | Some range_list =>
          let df_new := resample_loop df inc range_list [] in
          (Ok {| index_name := None;
                 columns := match df_new with
                            | [] => []
                            | _ :: _ => columns df
                            end;
                 rows := combine (map (fun i => Some (inject_Z i)) range_list)
                                 df_new |}, msgs)
      end
  | _, _ => (Raise ValueError, msgs)
  end.

(** The local [range_list] of [resample], for a table already indexed. *)
Definition range_list_of (df : DataFrame) (inc_amt : Z) : option (list Z) :=
  match index_min df, index_max df with
  | Some lo, Some hi => py_range (py_int lo) (py_int hi) inc_amt
  | _, _ => None
  end.

End Scripts.

(** ** The front end *)

(** [s.startswith(p)] and [s.endswith(p)] *)
Definition startswith (p s : string) : bool := String.prefix p s.

Definition endswith (p s : string) : bool :=
  (String.length p <=? String.length s)%nat
  && String.eqb (substring (String.length s - String.length p)
                           (String.length p) s) p.

(** [s.startswith(ps)] and [s.endswith(ps)] for a tuple [ps]. *)
Definition startswith_any (ps : list string) (s : string) : bool :=
  existsb (fun p => startswith p s) ps.

Definition endswith_any (ps : list string) (s : string) : bool :=
  existsb (fun p => endswith p s) ps.

Definition depth_names : list string :=
  ["depth"; "Depth"; "DEPTH"]%string.

Definition year_names : list string :=
  ["year"; "Year"; "age"; "Age"; "Time"; "YEAR"; "AGE"]%string.

(** [[i for i in data.columns if i.startswith(ps) | i.endswith(ps)]] *)
Definition matching_columns (ps : list string) (data : DataFrame)
  : list string :=
  List.filter (fun i => startswith_any ps i || endswith_any ps i)
              (columns data).

(** What [find_by_columns] returns: the columns with their generic name, or
    for the mode "all" the two column lists with the two names. *)
Inductive selection : Type :=
| Single (by_ : list string) (name : string)
| Both (by1 by2 : list string) (name1 name2 : string).

(** How a function of the front end ends: with a value, or with the
    [UnboundLocalError] of a variable its last branch never assigned. *)
Inductive front_result (A : Type) : Type :=
| Found (a : A)
| UnboundLocal (var : string).
Arguments Found {A} a.
Arguments UnboundLocal {A} var.

Definition by_not_found_message : string :=
  "by is not found as year or depth, input by as year or depth"%string.

(** [find_by_columns]: its result and the lines it prints. *)
Definition find_by_columns (data : DataFrame) (by_ : string)
  : front_result selection * list string :=
  if startswith_any ["Depth"; "depth"]%string by_ then
    (Found (Single (matching_columns depth_names data) "Depth"), [])
  else if startswith_any year_names by_ then
    (Found (Single (matching_columns year_names data) "Year"), [])
  else if startswith_any ["all"; "All"; "ALL"; "Both"; "BOTH"]%string by_ then
    (Found (Both (matching_columns depth_names data)
                 (matching_columns year_names data) "Depth" "Year"), [])
  else (UnboundLocal "name", [by_not_found_message]).

(** [user_input]: one [set_resample] for a single generic name, one per
    name otherwise; the log of the batch is carried along. *)
Definition user_input (out : writer) (fuel : nat) (raw_data_input : DataFrame)
    (sel : selection) (inc_amt : list Q) : outcome batch_log :=
  match sel with
  | Single by_ name => set_resample out fuel raw_data_input by_ inc_amt name
  | Both by1 by2 name1 name2 =>
      match set_resample_from out fuel raw_data_input name1 by1 inc_amt
              {| printed := []; written := [] |} with
      | Ok log => set_resample_from out fuel raw_data_input name2 by2 inc_amt log
      | Raise e => Raise e
      | Timeout => Timeout
      end
  end.

(** The columns a selection names. *)
Definition selected_columns (sel : selection) : list string :=
  match sel with
  | Single by_ _ => by_
  | Both by1 by2 _ _ => by1 ++ by2
  end.

(** One log after the other. *)
Definition log_app (l1 l2 : batch_log) : batch_log :=
  {| printed := printed l1 ++ printed l2;
     written := written l1 ++ written l2 |}.

(** Continuing an outcome with a log in front of it. *)
Definition prepend_log (log : batch_log) (o : outcome batch_log)
  : outcome batch_log :=
  match o with
  | Ok l => Ok (log_app log l)
  | Raise e => Raise e
  | Timeout => Timeout
  end.

(** Does the string hold a ["/"]? *)
Fixpoint has_slash (s : string) : bool :=
  match s with
  | EmptyString => false
  | String c rest => Ascii.eqb c "/"%char || has_slash rest
  end.

(** [os.path.basename]: what follows the last ["/"]. *)
Fixpoint basename_from (acc s : string) : string :=
  match s with
  | EmptyString => acc
  | String c rest =>
      if Ascii.eqb c "/"%char then basename_from EmptyString rest
      else basename_from (acc ++ String c EmptyString) rest
  end.

Definition basename (s : string) : string := basename_from EmptyString s.

(** [base = os.path.basename(file)[:-4]] *)
Definition base_of (file : string) : string :=
  let b := basename file in substring 0 (String.length b - 4) b.

(** Every row of the table has one cell per column. *)
Definition well_formed (df : DataFrame) : Prop :=
  forall r, In r (rows df) -> length (snd r) = length (columns df).

(** The table without the records whose key is missing. *)
Definition drop_missing_keys (df : DataFrame) : DataFrame :=
  {| index_name := index_name df;
     columns := columns df;
     rows := List.filter (fun r => negb (isnull (fst r))) (rows df) |}.

(** ** Sample inputs *)

(** The scenario table of the specification: keys 0 to 10, one data column
    1 to 11.  [scenario_raw] is the table as read from a file, with the
    default index; [scenario_table] is indexed by its key column. *)
Definition scenario_keys : list Q := [0; 1; 2; 3; 4; 5; 6; 7; 8; 9; 10].
Definition scenario_data : list Q := [1; 2; 3; 4; 5; 6; 7; 8; 9; 10; 11].

Definition scenario_raw : DataFrame :=
  {| index_name := None;
     columns := ["depth"%string; "x"%string];
     rows := map (fun kv => (Some (fst kv), [Some (fst kv); Some (snd kv)]))
                 (combine scenario_keys scenario_data) |}.

Definition scenario_table : DataFrame :=
  {| index_name := Some "depth"%string;
     columns := ["x"%string];
     rows := map (fun kv => (Some (fst kv), [Some (snd kv)]))
                 (combine scenario_keys scenario_data) |}.

(** The grid of the scenario, the means the specification expects and the
    means of the half-open windows centred on the grid points. *)
Definition scenario_grid : list Q := [0; 2; 4; 6; 8; 10].
Definition scenario_claimed_means : list Q :=
  [3 # 2; 7 # 2; 11 # 2; 15 # 2; 19 # 2; 11].
Definition scenario_means : list Q :=
  [1; 5 # 2; 9 # 2; 13 # 2; 17 # 2; 21 # 2].

(** A table whose smallest key is negative and not an integer. *)
Definition negative_table : DataFrame :=
  {| index_name := Some "year"%string;
     columns := ["x"%string];
     rows := [(Some (-3 # 2), [Some 1]); (Some (5 # 2), [Some 2])] |}.

(** A table on the grid of increment 1 whose rows are all missing except the
    first, and what [resample] makes of it. *)
Definition sparse_table : DataFrame :=
  {| index_name := Some "depth"%string;
     columns := ["x"%string];
     rows := [(Some 0, [Some 5]); (Some 1, [None]); (Some 2, [None]);
              (Some 3, [None]); (Some 4, [None]); (Some 5, [None]);
              (Some 6, [None]); (Some 7, [None])] |}.

Definition sparse_result : DataFrame * (list Q * option Q) :=
  Eval vm_compute in
    match resample_trace 20 sparse_table "depth" 1 with
    | Ok r => r
    | _ => (mkDataFrame None [] [], ([], None))
    end.

(** A table on the grid of increment 1/2 from 0 to 1/2. *)
Definition half_step_table : DataFrame :=
  {| index_name := Some "depth"%string;
     columns := ["x"%string];
     rows := [(Some 0, [Some 1]); (Some (1 # 2), [Some 2])] |}.

(** A table as read from a file whose column ["age"] holds no value. *)
Definition undated_raw : DataFrame :=
  {| index_name := None;
     columns := ["depth"%string; "age"%string; "x"%string];
     rows := [(Some 0, [Some 0; None; Some 1]);
              (Some 1, [Some 1; None; Some 2]);
              (Some 2, [Some 2; None; Some 3])] |}.

(** Runs of consecutive empty windows at increment 1. *)
Definition run6 : list Q := [0; 1; 2; 3; 4; 5].
Definition run7 : list Q := [0; 1; 2; 3; 4; 5; 6].

(** A table of eight records on the grid of increment 1 whose data column
    holds no value. *)
Definition blank_table : DataFrame :=
  {| index_name := Some "depth"%string;
     columns := ["x"%string];
     rows := map (fun k => (Some k, [None])) [0; 1; 2; 3; 4; 5; 6; 7] |}.

(** The table [Scripts.resample] works on after its attempt to index it. *)
Definition scripts_indexed (df : DataFrame) (by_ : string) : DataFrame :=
  match pd_set_index df by_ with
  | Some df' => df'
  | None => df
  end.

(** * Properties *)

(** ** The monad *)

Lemma bind_Some {A B} (m : M A) (k : A -> M B) h a h' :
  m h = Some (a, h') -> bind m k h = k a h'.
Proof. intros E. unfold bind. now rewrite E. Qed.

Lemma list_get_Some (l : loc) (i : nat) (h : gmap loc (list Q)) xs x :
  h !! l = Some xs -> xs !! i = Some x -> list_get l i h = Some (x, h).
Proof. intros Hl Hi. unfold list_get. now rewrite Hl, Hi. Qed.

(** ** The scan of [check_resample] *)

Lemma loop_indices_range n i :
  In i (loop_indices n) -> (1 <= i /\ i + 1 < n)%nat.
Proof. unfold loop_indices. rewrite in_seq. lia. Qed.

(** The loop, run on a heap where [n_idx] holds [r], leaves the heap as it
    is and returns the entry at which the counter becomes 5. *)
Lemma check_loop_spec (l : loc) (inc_amt : Q) (r : list Q) (h : gmap loc (list Q)) :
  h !! l = Some r ->
  forall (idxs : list nat) (z : nat),
    (forall i, In i idxs -> (i < length r)%nat) ->
    (z < 5)%nat ->
    check_loop l inc_amt idxs z h = Some (fifth_step inc_amt r idxs z, h).
Proof.
  intros Hl idxs.
  induction idxs as [|i rest IH]; intros z Hr Hz.
  - unfold fifth_step, step_positions. simpl.
    now destruct (4 - z)%nat.
  - assert (Hi : (i < length r)%nat) by (apply Hr; now left).
    destruct (lookup_lt_is_Some_2 r i Hi) as [a Ha].
    destruct (lookup_lt_is_Some_2 r (i - 1)%nat ltac:(lia)) as [b Hb].
    assert (Hrest : forall j, In j rest -> (j < length r)%nat)
      by (intros j Hj; apply Hr; now right).
    cbn [check_loop].
    rewrite (bind_Some _ _ _ _ _ (list_get_Some l i h r a Hl Ha)).
    rewrite (bind_Some _ _ _ _ _ (list_get_Some l (i - 1) h r b Hl Hb)).
    unfold fifth_step, step_positions in *. cbn [List.filter].
    unfold is_step at 1. rewrite Ha, Hb.
    destruct (Qeq_bool (a + inc_amt) b).
    + destruct (Nat.eqb_spec (z + 1) 5) as [E|E].
      * rewrite (bind_Some _ _ _ _ _ (list_get_Some l i h r a Hl Ha)).
        replace (4 - z)%nat with O by lia. cbn. now rewrite Ha.
      * rewrite (IH (z + 1)%nat Hrest ltac:(lia)).
        replace (4 - z)%nat with (S (4 - (z + 1))) by lia. reflexivity.
    + apply IH; assumption.
Qed.

(** [check_resample] on a list object holding [xs]: the list is reversed in
    place and the scan runs over the reversed list. *)
Lemma check_resample_spec (l : loc) (inc_amt : Q) (xs : list Q) (h : gmap loc (list Q)) :
  h !! l = Some xs ->
  check_resample l inc_amt h
  = Some (stop_point_of inc_amt (rev xs), <[l := rev xs]> h).
Proof.
  intros Hl. unfold check_resample.
  assert (Hrev : list_reverse l h = Some (tt, <[l := rev xs]> h))
    by (unfold list_reverse; now rewrite Hl).
  rewrite (bind_Some _ _ _ _ _ Hrev).
  assert (Hl' : (<[l := rev xs]> h) !! l = Some (rev xs))
    by apply lookup_insert_eq.
  assert (Hlen : list_len l (<[l := rev xs]> h)
                 = Some (length (rev xs), <[l := rev xs]> h))
    by (unfold list_len; now rewrite Hl').
  rewrite (bind_Some _ _ _ _ _ Hlen).
  apply check_loop_spec; [exact Hl' | | lia].
  intros i Hi. apply loop_indices_range in Hi. lia.
Qed.

(** The [k]-th element of a filtered interval is the point at which the
    count of accepted elements becomes [k + 1]. *)
Lemma nth_error_filter_seq (P : nat -> bool) (a n k i : nat) :
  nth_error (List.filter P (seq a n)) k = Some i <->
  (a <= i < a + n)%nat /\ P i = true
  /\ length (List.filter P (seq a (S i - a))) = S k.
Proof.
  induction n as [|n IH].
  - simpl. split; [now destruct k | lia].
  - rewrite List.seq_S, List.filter_app. cbn [List.filter].
    set (F := List.filter P (seq a n)) in *.
    assert (HF : length (List.filter P (seq a (S (a + n) - a)))
                 = (length F + (if P (a + n)%nat then 1 else 0))%nat).
    { replace (S (a + n) - a)%nat with (S n) by lia.
      rewrite List.seq_S, List.filter_app, List.length_app. cbn [List.filter].
      fold F. now destruct (P (a + n)%nat). }
    split.
    + intros H.
      destruct (Nat.lt_ge_cases k (length F)) as [Hk|Hk].
      * rewrite nth_error_app1 in H by assumption.
        apply IH in H. intuition lia.
      * rewrite nth_error_app2 in H by assumption.
        destruct (P (a + n)%nat) eqn:HP;
          [|now destruct (k - length F)%nat].
        destruct (k - length F)%nat as [|m] eqn:Hm;
          [|now destruct m].
        cbn in H. injection H as H. subst i.
        split; [lia|]. split; [assumption|].
        rewrite HF. lia.
    + intros (Hi & HP & Hc).
      destruct (Nat.eq_dec i (a + n)%nat) as [E|Hne].
      * subst i. rewrite HF, HP in Hc.
        rewrite HP, nth_error_app2 by lia.
        replace (k - length F)%nat with O by lia. reflexivity.
      * assert (H : nth_error F k = Some i) by (apply IH; intuition lia).
        rewrite nth_error_app1; [assumption|].
        apply nth_error_Some. congruence.
Qed.

Lemma stop_point_of_Some (inc_amt : Q) (r : list Q) (g : Q) :
  stop_point_of inc_amt r = Some g <->
  exists i, (1 <= i <= length r - 2)%nat /\ r !! i = Some g
            /\ is_step inc_amt r i = true /\ count_steps inc_amt r i = 5%nat.
Proof.
  unfold stop_point_of, fifth_step, step_positions, count_steps, loop_indices.
  cbn [Nat.sub].
  split.
  - destruct (nth_error _ 4) as [i|] eqn:E; [|discriminate].
    intros Hg. apply nth_error_filter_seq in E.
    destruct E as (Hi & HP & Hc).
    exists i. replace (S i - 1)%nat with i in Hc by lia.
    repeat split; try assumption; lia.
  - intros (i & Hi & Hg & HP & Hc).
    assert (E : nth_error (List.filter (is_step inc_amt r)
                             (seq 1 (length r - 1 - 1))) 4 = Some i).
    { apply nth_error_filter_seq.
      replace (S i - 1)%nat with i by lia.
      repeat split; try assumption; lia. }
    now rewrite E.
Qed.

Lemma count_steps_mono (inc_amt : Q) (r : list Q) (i j : nat) :
  (i <= j)%nat -> (count_steps inc_amt r i <= count_steps inc_amt r j)%nat.
Proof.
  intros Hij. unfold count_steps, step_positions.
  replace j with (i + (j - i))%nat by lia.
  rewrite List.seq_app, List.filter_app, List.length_app. lia.
Qed.

Lemma stop_point_of_None (inc_amt : Q) (r : list Q) :
  stop_point_of inc_amt r = None <->
  (count_steps inc_amt r (length r - 2) < 5)%nat.
Proof.
  unfold stop_point_of, fifth_step, count_steps, loop_indices.
  change (4 - 0)%nat with 4%nat.
  replace (length r - 1 - 1)%nat with (length r - 2)%nat by lia.
  set (L := step_positions inc_amt r (seq 1 (length r - 2))).
  split.
  - destruct (nth_error L 4) as [i|] eqn:E.
    + intros Hi. exfalso.
      apply nth_error_filter_seq in E. destruct E as (Hr & HP & _).
      unfold is_step in HP. rewrite Hi in HP. discriminate.
    + intros _. apply nth_error_None in E. simpl in E. lia.
  - intros Hlt.
    assert (E : nth_error L 4 = None) by (apply nth_error_None; simpl; lia).
    now rewrite E.
Qed.

Lemma is_step_true (inc_amt : Q) (r : list Q) (i : nat) :
  is_step inc_amt r i = true <->
  exists a b, r !! i = Some a /\ r !! (i - 1)%nat = Some b /\ a + inc_amt == b.
Proof.
  unfold is_step. split.
  - destruct (r !! i) as [a|]; [|discriminate].
    destruct (r !! (i - 1)%nat) as [b|]; [|discriminate].
    intros H. exists a, b. repeat split. now apply Qeq_bool_iff.
  - intros (a & b & -> & -> & H). now apply Qeq_bool_iff.
Qed.

(** The counter goes up by one at a step position and keeps its value at
    any other position. *)
Lemma count_steps_S (inc_amt : Q) (r : list Q) (i : nat) :
  count_steps inc_amt r (S i)
  = if is_step inc_amt r (S i) then S (count_steps inc_amt r i)
    else count_steps inc_amt r i.
Proof.
  unfold count_steps, step_positions.
  rewrite List.seq_S, List.filter_app, List.length_app. cbn [List.filter Nat.add].
  destruct (is_step inc_amt r (S i)); simpl; lia.
Qed.

(** The scan in full: [check_resample] reverses the list it is given and
    walks the reversed list [r] with a counter that goes up exactly at the
    positions [i] where [r[i] + inc_amt == r[i-1]] and is never reset; it
    returns [r[i]] at the position [i] where the counter becomes 5, and
    nothing when the counter stays below 5 over the positions the loop
    visits, [1 .. len - 2]. *)
Theorem check_resample_walk (l : loc) (inc_amt : Q) (xs : list Q)
    (h : gmap loc (list Q)) :
  h !! l = Some xs ->
  exists res,
    check_resample l inc_amt h = Some (res, <[l := rev xs]> h)
    /\ (forall i, count_steps inc_amt (rev xs) (S i)
                  = if is_step inc_amt (rev xs) (S i)
                    then S (count_steps inc_amt (rev xs) i)
                    else count_steps inc_amt (rev xs) i)
    /\ (forall g, res = Some g <->
          exists i, (1 <= i <= length xs - 2)%nat
                    /\ rev xs !! i = Some g
                    /\ (exists b, rev xs !! (i - 1)%nat = Some b
                                  /\ g + inc_amt == b)
                    /\ count_steps inc_amt (rev xs) i = 5%nat)
    /\ (res = None <->
          (count_steps inc_amt (rev xs) (length xs - 2) < 5)%nat).
Proof.
  intros Hl. exists (stop_point_of inc_amt (rev xs)).
  split; [now apply check_resample_spec|].
  split; [intros i; apply count_steps_S|].
  split.
  - intros g. rewrite stop_point_of_Some, length_rev.
    split; intros (i & Hi & Hg & Hs & Hc); exists i;
      (split; [exact Hi|]); (split; [exact Hg|]); (split; [|exact Hc]).
    + apply is_step_true in Hs. destruct Hs as (a & b & Ha & Hb & E).
      exists b. split; [exact Hb|]. congruence.
    + destruct Hs as (b & Hb & E). apply is_step_true. now exists g, b.
  - rewrite stop_point_of_None, length_rev. reflexivity.
Qed.

Lemma check_resample_walk_witness :
  exists res,
    check_resample 1%positive 1 {[ 1%positive := run7 ]}
    = Some (res, <[1%positive := rev run7]> {[ 1%positive := run7 ]})
    /\ (forall i, count_steps 1 (rev run7) (S i)
                  = if is_step 1 (rev run7) (S i)
                    then S (count_steps 1 (rev run7) i)
                    else count_steps 1 (rev run7) i)
    /\ (forall g, res = Some g <->
          exists i, (1 <= i <= length run7 - 2)%nat
                    /\ rev run7 !! i = Some g
                    /\ (exists b, rev run7 !! (i - 1)%nat = Some b
                                  /\ g + 1 == b)
                    /\ count_steps 1 (rev run7) i = 5%nat)
    /\ (res = None <-> (count_steps 1 (rev run7) (length run7 - 2) < 5)%nat).
Proof.
  apply (check_resample_walk 1%positive 1 run7 {[ 1%positive := run7 ]}).
  apply lookup_singleton_eq.
Defined.

(** Seven consecutive empty windows give the cutoff 1; the matching pairs
    need not be adjacent to one another for the counter to reach 5. *)
Example check_resample_run7 :
  stop_point_of 1 (rev run7) = Some 1.
Proof. reflexivity. Qed.

Example check_resample_no_reset :
  stop_point_of 1 (rev [0; 1; 2; 5; 6; 7; 10; 11; 12]) = Some 1.
Proof. reflexivity. Qed.

(** C2.  The walk stops one pair short.  On six consecutive empty
    windows, 0 to 5 at increment 1, each of the five adjacent pairs of the
    reversed list is one increment apart, and a counter over them reaches 5
    at the last pair, whose current entry is 0; the loop of
    [check_resample] visits the positions 1 to 4 only, its counter ends at
    4 and nothing is returned. *)
Theorem check_resample_six_in_a_row :
  check_resample 1%positive 1 {[ 1%positive := [0; 1; 2; 3; 4; 5] ]}
  = Some (None, {[ 1%positive := [5; 4; 3; 2; 1; 0] ]})
  /\ loop_indices 6 = [1; 2; 3; 4]%nat
  /\ count_steps 1 [5; 4; 3; 2; 1; 0] 4 = 4%nat
  /\ fifth_step_all_pairs 1 [5; 4; 3; 2; 1; 0] = Some 5%nat
  /\ nth_error [5; 4; 3; 2; 1; 0] 5 = Some 0.
Proof.
  split; [|repeat split; reflexivity].
  rewrite (check_resample_spec 1%positive 1 [0; 1; 2; 3; 4; 5])
    by apply lookup_singleton_eq.
  rewrite insert_singleton_eq. reflexivity.
Qed.

(** C9.  The loop of [check_resample] visits positions [1 .. len - 2] of
    the reversed list and so never looks at its last adjacent pair: a list
    of at most two entries gives no cutoff, and neither does a list on
    which a walk over all adjacent pairs would bring the counter to 5 only
    at the last pair. *)
Theorem check_resample_skips_last_pair (l : loc) (inc_amt : Q) (xs : list Q)
    (h : gmap loc (list Q)) :
  h !! l = Some xs ->
  (length xs <= 2)%nat
  \/ fifth_step_all_pairs inc_amt (rev xs) = Some (length xs - 1)%nat ->
  loop_indices (length xs) = seq 1 (length xs - 2)
  /\ check_resample l inc_amt h = Some (None, <[l := rev xs]> h).
Proof.
  intros Hl Hcase.
  split; [unfold loop_indices; f_equal; lia|].
  rewrite (check_resample_spec l inc_amt xs h Hl). do 2 f_equal.
  apply stop_point_of_None. rewrite length_rev.
  destruct Hcase as [Hlen|Hlast].
  - replace (length xs - 2)%nat with O by lia. cbn. lia.
  - unfold fifth_step_all_pairs, step_positions in Hlast.
    apply nth_error_filter_seq in Hlast.
    rewrite length_rev in Hlast.
    destruct Hlast as (Hr & Hs & Hc).
    replace (S (length xs - 1) - 1)%nat with (S (length xs - 2)) in Hc by lia.
    fold (step_positions inc_amt (rev xs) (seq 1 (S (length xs - 2)))) in Hc.
    fold (count_steps inc_amt (rev xs) (S (length xs - 2))) in Hc.
    rewrite count_steps_S in Hc.
    replace (S (length xs - 2)) with (length xs - 1)%nat in Hc by lia.
    rewrite Hs in Hc. lia.
Qed.

Lemma check_resample_skips_last_pair_witness :
  fifth_step_all_pairs 1 (rev run6) = Some (length run6 - 1)%nat
  /\ check_resample 1%positive 1 {[ 1%positive := run6 ]}
     = Some (None, <[1%positive := rev run6]> {[ 1%positive := run6 ]})
  /\ check_resample 1%positive 1 {[ 1%positive := [3; 4] ]}
     = Some (None, <[1%positive := rev [3; 4]]> {[ 1%positive := [3; 4] ]}).
Proof.
  split; [reflexivity|]. split.
  - apply (check_resample_skips_last_pair 1%positive 1 run6
             {[ 1%positive := run6 ]}).
    + apply lookup_singleton_eq.
    + right. reflexivity.
  - apply (check_resample_skips_last_pair 1%positive 1 [3; 4]
             {[ 1%positive := [3; 4] ]}).
    + apply lookup_singleton_eq.
    + left. simpl. lia.
Defined.

(** C10.  [check_resample] reverses the list object it is passed: after
    the call the caller's reference holds the reversal of what it held
    before, whatever the call returns, and no other object has changed. *)
Theorem check_resample_reverses_in_place (l : loc) (inc_amt : Q)
    (xs : list Q) (h : gmap loc (list Q)) :
  h !! l = Some xs ->
  exists res h',
    check_resample l inc_amt h = Some (res, h')
    /\ h' !! l = Some (rev xs)
    /\ forall l', l' <> l -> h' !! l' = h !! l'.
Proof.
  intros Hl.
  exists (stop_point_of inc_amt (rev xs)), (<[l := rev xs]> h).
  split; [now apply check_resample_spec|].
  split; [apply lookup_insert_eq|].
  intros l' Hne. now apply lookup_insert_ne.
Qed.

Lemma check_resample_reverses_in_place_witness :
  exists res h',
    check_resample 1%positive 1 {[ 1%positive := run7; 2%positive := run6 ]}
    = Some (res, h')
    /\ h' !! 1%positive = Some (rev run7)
    /\ forall l', l' <> 1%positive ->
         h' !! l' = ({[ 1%positive := run7; 2%positive := run6 ]}
                      : gmap loc (list Q)) !! l'.
Proof.
  apply (check_resample_reverses_in_place 1%positive 1 run7
           {[ 1%positive := run7; 2%positive := run6 ]}).
  apply lookup_insert_eq.
Defined.

(** ** [int()] on rationals *)

Lemma py_int_nonneg (x : Q) : 0 <= x -> py_int x = Qfloor x.
Proof.
  intros Hx. unfold py_int, Qfloor. destruct x as [n d].
  unfold Qle in Hx. simpl in *.
  apply Z.quot_div_nonneg; lia.
Qed.

Lemma py_int_neg (x : Q) : x <= 0 -> py_int x = Qceiling x.
Proof.
  intros Hx. unfold py_int, Qceiling, Qfloor. destruct x as [n d].
  unfold Qle in Hx. simpl in *.
  rewrite <- (Z.opp_involutive n) at 1.
  rewrite Z.quot_opp_l by lia.
  f_equal. apply Z.quot_div_nonneg; lia.
Qed.

(** On an integer [int()] is the identity. *)
Lemma py_int_inject_Z (z : Z) : py_int (inject_Z z) = z.
Proof. unfold py_int. simpl. apply Z.quot_1_r. Qed.

Lemma py_int_mono (x y : Q) : x <= y -> (py_int x <= py_int y)%Z.
Proof.
  intros Hxy.
  destruct (Qlt_le_dec x 0) as [Hx|Hx].
  - rewrite (py_int_neg x) by lra.
    destruct (Qlt_le_dec y 0) as [Hy|Hy].
    + rewrite (py_int_neg y) by lra. now apply Qceiling_resp_le.
    + rewrite (py_int_nonneg y) by assumption.
      assert (H1 : (Qceiling x <= 0)%Z).
      { unfold Qceiling.
        assert (H := Qfloor_resp_le 0 (- x) ltac:(lra)).
        change (Qfloor 0) with 0%Z in H. lia. }
      assert (H2 := Qfloor_resp_le 0 y Hy).
      change (Qfloor 0) with 0%Z in H2. lia.
  - rewrite (py_int_nonneg x), (py_int_nonneg y) by lra.
    now apply Qfloor_resp_le.
Qed.

(** ** Minimum and maximum of the index *)

Lemma fold_Qmin_le (ks : list Q) (k : Q) : fold_left Qmin_bool ks k <= k.
Proof.
  revert k. induction ks as [|a ks IH]; intros k; simpl; [lra|].
  eapply Qle_trans; [apply IH|].
  unfold Qmin_bool. destruct (Qle_bool k a) eqn:E; [lra|].
  destruct (Qlt_le_dec a k) as [H|H]; [lra|].
  apply Qle_bool_iff in H. congruence.
Qed.

Lemma fold_Qmax_ge (ks : list Q) (k : Q) : k <= fold_left Qmax_bool ks k.
Proof.
  revert k. induction ks as [|a ks IH]; intros k; simpl; [lra|].
  eapply Qle_trans; [|apply IH].
  unfold Qmax_bool. destruct (Qle_bool k a) eqn:E; [|lra].
  now apply Qle_bool_iff.
Qed.

Lemma fold_Qmin_lower (ks : list Q) (k x : Q) :
  In x ks -> fold_left Qmin_bool ks k <= x.
Proof.
  revert k. induction ks as [|a ks IH]; intros k; simpl; [tauto|].
  intros [->|Hx]; [|now apply IH].
  eapply Qle_trans; [apply fold_Qmin_le|].
  unfold Qmin_bool. destruct (Qle_bool k x) eqn:E; [|lra].
  now apply Qle_bool_iff.
Qed.

Lemma fold_Qmax_upper (ks : list Q) (k x : Q) :
  In x ks -> x <= fold_left Qmax_bool ks k.
Proof.
  revert k. induction ks as [|a ks IH]; intros k; simpl; [tauto|].
  intros [->|Hx]; [|now apply IH].
  eapply Qle_trans; [|apply fold_Qmax_ge].
  unfold Qmax_bool. destruct (Qle_bool k x) eqn:E; [lra|].
  destruct (Qlt_le_dec x k) as [H|H]; [lra|].
  apply Qle_bool_iff in H. congruence.
Qed.

Lemma present_In (vs : list value) (q : Q) :
  In q (present vs) <-> In (Some q) vs.
Proof.
  induction vs as [|[a|] vs IH]; simpl; [tauto| |].
  - rewrite IH. split; intros [H|H]; auto; left; congruence.
  - rewrite IH. split; [auto|]. intros [H|H]; [discriminate|assumption].
Qed.

(** [index_min] is a lower bound of the labels that are present, and
    [index_max] an upper bound. *)
Lemma index_min_lower (df : DataFrame) (lo k : Q) :
  index_min df = Some lo -> In (Some k) (keys df) -> lo <= k.
Proof.
  unfold index_min. intros H Hk. apply present_In in Hk.
  destruct (present (keys df)) as [|k0 ks]; [discriminate|].
  injection H as <-. destruct Hk as [->|Hk].
  - apply fold_Qmin_le.
  - now apply fold_Qmin_lower.
Qed.

Lemma index_max_upper (df : DataFrame) (hi k : Q) :
  index_max df = Some hi -> In (Some k) (keys df) -> k <= hi.
Proof.
  unfold index_max. intros H Hk. apply present_In in Hk.
  destruct (present (keys df)) as [|k0 ks]; [discriminate|].
  injection H as <-. destruct Hk as [->|Hk].
  - apply fold_Qmax_ge.
  - now apply fold_Qmax_upper.
Qed.

Lemma index_min_le_max (df : DataFrame) (lo hi : Q) :
  index_min df = Some lo -> index_max df = Some hi -> lo <= hi.
Proof.
  unfold index_min, index_max.
  destruct (present (keys df)) as [|k ks]; [discriminate|].
  intros [= <-] [= <-].
  eapply Qle_trans; [apply fold_Qmin_le | apply fold_Qmax_ge].
Qed.

(** ** The grid generator *)

Lemma grid_point_0 (top : Z) (inc_amt : Q) :
  grid_point top inc_amt 0 == inject_Z top.
Proof. unfold grid_point. simpl. ring. Qed.

Lemma grid_point_S (top : Z) (inc_amt : Q) (i : nat) :
  grid_point top inc_amt (S i) == grid_point top inc_amt i + inc_amt.
Proof.
  unfold grid_point. rewrite Nat2Z.inj_succ. unfold Z.succ.
  rewrite inject_Z_plus. ring.
Qed.

Lemma grid_point_le (top : Z) (inc_amt : Q) (i j : nat) :
  0 <= inc_amt -> (i <= j)%nat ->
  grid_point top inc_amt i <= grid_point top inc_amt j.
Proof.
  intros Hinc Hij. induction Hij as [|j Hij IH]; [lra|].
  rewrite grid_point_S. lra.
Qed.

Lemma grid_point_lt (top : Z) (inc_amt : Q) (i j : nat) :
  0 < inc_amt -> (i < j)%nat ->
  grid_point top inc_amt i < grid_point top inc_amt j.
Proof.
  intros Hinc Hij.
  apply Qlt_le_trans with (grid_point top inc_amt (S i)).
  - rewrite grid_point_S. lra.
  - apply grid_point_le; [lra|lia].
Qed.

(** What the generator returns, when it returns: the points counted from
    [i], all at most [bot], up to the first one beyond [bot]. *)
Lemma frange_from_sound (top bot : Z) (inc_amt : Q) :
  forall (fuel i : nat) (grid : list Q),
    frange_from fuel i top bot inc_amt = Some grid ->
    grid = map (grid_point top inc_amt) (seq i (length grid))
    /\ (forall j, (i <= j < i + length grid)%nat ->
                  grid_point top inc_amt j <= inject_Z bot)
    /\ inject_Z bot < grid_point top inc_amt (i + length grid).
Proof.
  induction fuel as [|fuel IH]; intros i grid H; [discriminate|].
  cbn [frange_from] in H.
  destruct (Qle_bool (grid_point top inc_amt i) (inject_Z bot)) eqn:E.
  - destruct (frange_from fuel (S i) top bot inc_amt) as [g'|] eqn:E';
      [|discriminate].
    injection H as <-. apply IH in E'. destruct E' as (Hg & Hle & Hgt).
    cbn [length seq map]. split; [now rewrite <- Hg|]. split.
    + intros j Hj. destruct (Nat.eq_dec j i) as [->|Hne].
      * now apply Qle_bool_iff.
      * apply Hle. lia.
    + now replace (i + S (length g'))%nat with (S i + length g')%nat by lia.
  - injection H as <-. simpl. split; [reflexivity|]. split; [lia|].
    rewrite Nat.add_0_r.
    destruct (Qlt_le_dec (inject_Z bot) (grid_point top inc_amt i)) as [H|H];
      [assumption|].
    apply Qle_bool_iff in H. congruence.
Qed.

(** More fuel does not change a result. *)
Lemma frange_from_more_fuel (top bot : Z) (inc_amt : Q) :
  forall (fuel fuel' i : nat) (grid : list Q),
    frange_from fuel i top bot inc_amt = Some grid ->
    (fuel <= fuel')%nat ->
    frange_from fuel' i top bot inc_amt = Some grid.
Proof.
  induction fuel as [|fuel IH]; intros fuel' i grid H Hle; [discriminate|].
  destruct fuel' as [|fuel']; [lia|].
  cbn [frange_from] in *.
  destruct (Qle_bool (grid_point top inc_amt i) (inject_Z bot)); [|assumption].
  destruct (frange_from fuel (S i) top bot inc_amt) as [g'|] eqn:E';
    [|discriminate].
  rewrite (IH fuel' (S i) g' E' ltac:(lia)). assumption.
Qed.

(** With [m] points at most [bot] and the next one beyond it, any fuel
    above [m] lets the generator finish. *)
Lemma frange_from_complete (top bot : Z) (inc_amt : Q) :
  forall (m i fuel : nat),
    (forall j, (i <= j < i + m)%nat ->
               grid_point top inc_amt j <= inject_Z bot) ->
    inject_Z bot < grid_point top inc_amt (i + m) ->
    (m < fuel)%nat ->
    frange_from fuel i top bot inc_amt
    = Some (map (grid_point top inc_amt) (seq i m)).
Proof.
  induction m as [|m IH]; intros i fuel Hle Hgt Hfuel;
    (destruct fuel as [|fuel]; [lia|]); cbn [frange_from].
  - rewrite Nat.add_0_r in Hgt.
    destruct (Qle_bool (grid_point top inc_amt i) (inject_Z bot)) eqn:E;
      [|reflexivity].
    apply Qle_bool_iff in E. lra.
  - assert (E : Qle_bool (grid_point top inc_amt i) (inject_Z bot) = true)
      by (apply Qle_bool_iff, Hle; lia).
    rewrite E, (IH (S i) fuel); [reflexivity| | |lia].
    + intros j Hj. apply Hle. lia.
    + now replace (S i + m)%nat with (i + S m)%nat by lia.
Qed.

Lemma frange_total (top bot : Z) (inc_amt : Q) (fuel : nat) :
  0 < inc_amt ->
  (grid_size top bot inc_amt < fuel)%nat ->
  frange fuel top bot inc_amt
  = Some (map (grid_point top inc_amt) (seq 0 (grid_size top bot inc_amt))).
Proof.
  intros Hinc Hfuel. unfold frange.
  apply frange_from_complete; [| |assumption]; unfold grid_size in *;
    destruct (Z.leb_spec top bot) as [Htb|Htb].
  - intros j Hj.
    set (q := (inject_Z bot - inject_Z top) / inc_amt) in *.
    assert (Hq : q * inc_amt == inject_Z bot - inject_Z top)
      by (unfold q; field; lra).
    assert (Hq0 : 0 <= q).
    { assert (inject_Z top <= inject_Z bot) by (rewrite <- Zle_Qle; lia).
      destruct (Qlt_le_dec q 0); [nra|assumption]. }
    assert (Hf0 : (0 <= Qfloor q)%Z)
      by (change 0%Z with (Qfloor 0); now apply Qfloor_resp_le).
    assert (Hj' : inject_Z (Z.of_nat j) <= inject_Z (Qfloor q))
      by (rewrite <- Zle_Qle; lia).
    assert (Hfl := Qfloor_le q).
    unfold grid_point. nra.
  - lia.
  - set (q := (inject_Z bot - inject_Z top) / inc_amt) in *.
    assert (Hq : q * inc_amt == inject_Z bot - inject_Z top)
      by (unfold q; field; lra).
    assert (Hq0 : 0 <= q).
    { assert (inject_Z top <= inject_Z bot) by (rewrite <- Zle_Qle; lia).
      destruct (Qlt_le_dec q 0); [nra|assumption]. }
    assert (Hf0 : (0 <= Qfloor q)%Z)
      by (change 0%Z with (Qfloor 0); now apply Qfloor_resp_le).
    assert (Hfl := Qlt_floor q).
    unfold grid_point. cbn [Nat.add].
    rewrite Nat2Z.inj_succ, Z2Nat.id by assumption.
    unfold Z.succ. nra.
  - cbn [Nat.add]. rewrite grid_point_0, <- Zlt_Qlt. lia.
Qed.

Lemma nth_error_map_seq {A} (f : nat -> A) (n j : nat) (x : A) :
  nth_error (map f (seq 0 n)) j = Some x <-> (j < n)%nat /\ x = f j.
Proof.
  rewrite nth_error_map, nth_error_seq.
  destruct (Nat.ltb_spec j n); simpl; split.
  - intros [= <-]. now split.
  - intros [_ ->]. reflexivity.
  - discriminate.
  - lia.
Qed.

(** The grid of [resample] for a positive increment: the points
    [top + j * inc_amt] that are at most [bot]. *)
Lemma resample_range_total (df : DataFrame) (inc_amt lo hi : Q) (fuel : nat) :
  index_min df = Some lo -> index_max df = Some hi -> 0 < inc_amt ->
  (grid_size (py_int lo) (py_int hi) inc_amt < fuel)%nat ->
  resample_range fuel df inc_amt
  = Ok (map (grid_point (py_int lo) inc_amt)
            (seq 0 (grid_size (py_int lo) (py_int hi) inc_amt))).
Proof.
  intros Hlo Hhi Hinc Hfuel. unfold resample_range.
  rewrite Hlo, Hhi. cbv zeta. now rewrite frange_total.
Qed.

Lemma resample_range_sound (df : DataFrame) (inc_amt : Q) (fuel : nat)
    (grid : list Q) :
  resample_range fuel df inc_amt = Ok grid ->
  exists lo hi,
    index_min df = Some lo /\ index_max df = Some hi
    /\ frange fuel (py_int lo) (py_int hi) inc_amt = Some grid.
Proof.
  unfold resample_range.
  destruct (index_min df) as [lo|]; [|discriminate].
  destruct (index_max df) as [hi|]; [|discriminate].
  cbv zeta.
  destruct (frange fuel (py_int lo) (py_int hi) inc_amt) as [g|] eqn:E;
    [|discriminate].
  intros [= <-]. now exists lo, hi.
Qed.

(** ** Python's [range] *)

Lemma py_range_pos (start stop step : Z) (grid : list Z) :
  (0 < step)%Z ->
  Scripts.py_range start stop step = Some grid ->
  exists n,
    grid = map (fun i => (start + Z.of_nat i * step)%Z) (seq 0 n)
    /\ (forall i, (i < n)%nat -> (start + Z.of_nat i * step < stop)%Z)
    /\ (stop <= start + Z.of_nat n * step)%Z
    /\ ((start < stop)%Z -> (0 < n)%nat).
Proof.
  intros Hstep. unfold Scripts.py_range.
  destruct (Z.eqb_spec step 0) as [?|_]; [lia|].
  destruct (Z.ltb_spec 0 step) as [_|?]; [|lia].
  intros [= <-].
  destruct (Z.ltb_spec start stop) as [Hlt|Hge].
  - set (d := (stop - start - 1)%Z).
    assert (Hd : (0 <= d)%Z) by (unfold d; lia).
    assert (Hk : (0 <= d / step)%Z) by (apply Z.div_pos; lia).
    assert (Hmul : (step * (d / step) <= d)%Z) by (apply Z.mul_div_le; lia).
    assert (Hsucc : (d < step * Z.succ (d / step))%Z)
      by (apply Z.mul_succ_div_gt; lia).
    eexists. split; [reflexivity|]. split; [|split].
    + intros i Hi.
      assert (Z.of_nat i <= d / step)%Z by lia.
      assert (Z.of_nat i * step <= step * (d / step))%Z by nia.
      unfold d in *. lia.
    + rewrite Z2Nat.id by lia. unfold d in *. lia.
    + intros _. lia.
  - exists O. simpl. split; [reflexivity|]. split; [lia|]. split; lia.
Qed.

Example scenario_set_index :
  set_index scenario_raw "depth" = (scenario_table, []).
Proof. reflexivity. Qed.

(** ** Grid coverage *)

(** C3, as the specification states it, fails in two ways: the grid of
    [resample] starts at [int(min(key))], which is above the floor for a
    negative key that is not an integer; and the grid of the older
    [scripts/Resample.py] stops before [bot] even when [bot - top] is a
    multiple of the increment. *)
Lemma grid_floor_counterexample :
  (exists lo grid g0,
      index_min negative_table = Some lo
      /\ resample_range 10 negative_table 1 = Ok grid
      /\ hd_error grid = Some g0
      /\ ~ g0 == inject_Z (Qfloor lo))
  /\ (exists t,
         Scripts.resample scenario_raw 2 "depth" = (Ok t, [])
         /\ index_max scenario_table = Some 10
         /\ keys t = [Some 0; Some 2; Some 4; Some 6; Some 8]).
Proof.
  split.
  - exists (-3 # 2), [-1; 0; 1; 2], (-1). repeat split.
    intros H. vm_compute in H. discriminate.
  - eexists. repeat split.
Qed.

(** C3 (amended).  For a table with at least one key present and a
    positive increment, with [top = int(min(key))] and
    [bot = int(max(key))] (truncation toward zero, which is the floor when
    the keys are not negative): [resample] generates a grid that starts at
    [top], whose consecutive points differ by exactly the increment, whose
    points all lie in [[top, bot]], and whose last point is [bot] when
    [bot - top] is a multiple of the increment.  The grid of the older
    [scripts/Resample.py], for a positive integer increment, starts at
    [top] when [top < bot], steps by the increment and stays in
    [[top, bot)]. *)
Theorem grid_coverage (df : DataFrame) (inc_amt lo hi : Q) :
  index_min df = Some lo -> index_max df = Some hi -> 0 < inc_amt ->
  (0 <= lo -> py_int lo = Qfloor lo /\ py_int hi = Qfloor hi)
  /\ (exists grid,
         (forall fuel,
             (grid_size (py_int lo) (py_int hi) inc_amt < fuel)%nat ->
             resample_range fuel df inc_amt = Ok grid)
         /\ (exists g0, hd_error grid = Some g0 /\ g0 == inject_Z (py_int lo))
         /\ (forall j a b,
                nth_error grid j = Some a -> nth_error grid (S j) = Some b ->
                b - a == inc_amt)
         /\ (forall g, In g grid ->
                       inject_Z (py_int lo) <= g <= inject_Z (py_int hi))
         /\ (forall n : nat,
                inject_Z (py_int hi) - inject_Z (py_int lo)
                == inject_Z (Z.of_nat n) * inc_amt ->
                exists g, nth_error grid (length grid - 1) = Some g
                          /\ g == inject_Z (py_int hi)))
  /\ (forall step : Z,
         (0 < step)%Z ->
         exists zgrid,
           Scripts.range_list_of df step = Some zgrid
           /\ ((py_int lo < py_int hi)%Z -> hd_error zgrid = Some (py_int lo))
           /\ (forall j a b,
                  nth_error zgrid j = Some a -> nth_error zgrid (S j) = Some b ->
                  (b - a)%Z = step)
           /\ (forall g, In g zgrid -> (py_int lo <= g < py_int hi)%Z)).
Proof.
  intros Hlo Hhi Hinc.
  assert (Hlh : lo <= hi) by (eapply index_min_le_max; eassumption).
  assert (Htb : (py_int lo <= py_int hi)%Z) by now apply py_int_mono.
  set (top := py_int lo) in *. set (bot := py_int hi) in *.
  split; [|split].
  - intros H0. split; apply py_int_nonneg; lra.
  - set (N := grid_size top bot inc_amt).
    assert (HN : (0 < N)%nat).
    { unfold N, grid_size. destruct (Z.leb_spec top bot); lia. }
    assert (Hfr := frange_total top bot inc_amt (S N) Hinc ltac:(fold N; lia)).
    fold N in Hfr.
    destruct (frange_from_sound _ _ _ _ _ _ Hfr) as (_ & Hle & Hgt).
    rewrite length_map, length_seq in Hle, Hgt. cbn [Nat.add] in Hle, Hgt.
    exists (map (grid_point top inc_amt) (seq 0 N)).
    split; [|split; [|split; [|split]]].
    + intros fuel Hfuel. now apply (resample_range_total df inc_amt lo hi).
    + destruct N as [|N']; [lia|]. exists (grid_point top inc_amt 0).
      split; [reflexivity | apply grid_point_0].
    + intros j a b Ha Hb.
      apply nth_error_map_seq in Ha, Hb.
      destruct Ha as [_ ->], Hb as [_ ->]. rewrite grid_point_S. ring.
    + intros g Hg. apply In_nth_error in Hg. destruct Hg as [j Hj].
      apply nth_error_map_seq in Hj. destruct Hj as [Hj ->]. split.
      * rewrite <- (grid_point_0 top inc_amt).
        apply grid_point_le; [lra|lia].
      * apply Hle. lia.
    + intros n Hn.
      assert (Hgn : grid_point top inc_amt n == inject_Z bot)
        by (unfold grid_point; lra).
      assert (Hn1 : (n < N)%nat).
      { destruct (Nat.lt_ge_cases n N) as [?|Hge]; [assumption|].
        assert (H := grid_point_le top inc_amt N n ltac:(lra) Hge). lra. }
      assert (Hn2 : ~ (S n < N)%nat).
      { intros Hlt. assert (H := Hle (S n) ltac:(lia)).
        rewrite grid_point_S in H. lra. }
      exists (grid_point top inc_amt n). split; [|assumption].
      rewrite length_map, length_seq. apply nth_error_map_seq. split; [lia|].
      f_equal. lia.
  - intros step Hstep. unfold Scripts.range_list_of. rewrite Hlo, Hhi.
    fold top bot.
    destruct (Scripts.py_range top bot step) as [zgrid|] eqn:E.
    2:{ unfold Scripts.py_range in E.
        destruct (Z.eqb_spec step 0); [lia|discriminate]. }
    destruct (py_range_pos top bot step zgrid Hstep E)
      as (n & -> & Hlt & Hge & Hpos).
    eexists. split; [reflexivity|]. split; [|split].
    + intros H. specialize (Hpos H). destruct n as [|n']; [lia|].
      simpl. f_equal. lia.
    + intros j a b Ha Hb.
      apply nth_error_map_seq in Ha, Hb.
      destruct Ha as [_ ->], Hb as [_ ->]. lia.
    + intros g Hg. apply In_nth_error in Hg. destruct Hg as [j Hj].
      apply nth_error_map_seq in Hj. destruct Hj as [Hj ->].
      specialize (Hlt j Hj). lia.
Qed.

Lemma grid_coverage_witness :
  (0 <= 0 -> py_int 0 = Qfloor 0 /\ py_int 10 = Qfloor 10)
  /\ (exists grid,
         (forall fuel,
             (grid_size (py_int 0) (py_int 10) 2 < fuel)%nat ->
             resample_range fuel scenario_table 2 = Ok grid)
         /\ (exists g0, hd_error grid = Some g0 /\ g0 == inject_Z (py_int 0))
         /\ (forall j a b,
                nth_error grid j = Some a -> nth_error grid (S j) = Some b ->
                b - a == 2)
         /\ (forall g, In g grid ->
                       inject_Z (py_int 0) <= g <= inject_Z (py_int 10))
         /\ (forall n : nat,
                inject_Z (py_int 10) - inject_Z (py_int 0)
                == inject_Z (Z.of_nat n) * 2 ->
                exists g, nth_error grid (length grid - 1) = Some g
                          /\ g == inject_Z (py_int 10)))
  /\ (forall step : Z,
         (0 < step)%Z ->
         exists zgrid,
           Scripts.range_list_of scenario_table step = Some zgrid
           /\ ((py_int 0 < py_int 10)%Z -> hd_error zgrid = Some (py_int 0))
           /\ (forall j a b,
                  nth_error zgrid j = Some a -> nth_error zgrid (S j) = Some b ->
                  (b - a)%Z = step)
           /\ (forall g, In g zgrid -> (py_int 0 <= g < py_int 10)%Z)).
Proof.
  apply (grid_coverage scenario_table 2 0 10).
  - reflexivity.
  - reflexivity.
  - reflexivity.
Defined.

(** ** The loop of [resample] *)

Lemma list_append_Some (l : loc) (x : Q) (h : gmap loc (list Q)) xs :
  h !! l = Some xs -> list_append l x h = Some (tt, <[l := xs ++ [x]]> h).
Proof. intros Hl. unfold list_append. now rewrite Hl. Qed.

(** The loop appends one row per grid point and appends to [n_idx] the
    grid points whose row is all missing; nothing else changes. *)
Lemma resample_loop_spec (df : DataFrame) (inc_amt : Q) (l : loc) :
  forall (grid : list Q) (df_new : list (list value))
         (h : gmap loc (list Q)) (xs : list Q),
    h !! l = Some xs ->
    resample_loop df (inc_amt / 2) l grid df_new h
    = Some (df_new ++ map (resampled_row df inc_amt) grid,
            <[l := xs ++ empty_window_grid_points df inc_amt grid]> h).
Proof.
  induction grid as [|g grid IH]; intros df_new h xs Hl.
  - cbn. unfold ret. rewrite !app_nil_r. now rewrite insert_id.
  - cbn [resample_loop map empty_window_grid_points List.filter].
    fold (resampled_row df inc_amt g).
    fold (empty_window_grid_points df inc_amt grid).
    destruct (all_null (resampled_row df inc_amt g)).
    + rewrite (bind_Some _ _ _ _ _ (list_append_Some l g h xs Hl)).
      rewrite (IH _ _ (xs ++ [g])) by apply lookup_insert_eq.
      rewrite insert_insert_eq, <- !app_assoc. reflexivity.
    + rewrite (IH _ _ xs Hl), <- app_assoc. reflexivity.
Qed.

(** [resample] once its grid is known. *)
(** The grid of [resample] has a first point. *)
Lemma resample_range_nonempty (fuel : nat) (df : DataFrame) (inc_amt : Q)
    (grid : list Q) :
  resample_range fuel df inc_amt = Ok grid -> grid <> [].
Proof.
  intros Hr. apply resample_range_sound in Hr.
  destruct Hr as (lo & hi & Hlo & Hhi & Hf).
  assert (Hlh : lo <= hi) by (eapply index_min_le_max; eassumption).
  assert (Htb : (py_int lo <= py_int hi)%Z) by now apply py_int_mono.
  destruct (frange_from_sound _ _ _ _ _ _ Hf) as (_ & _ & Hgt).
  intros ->. cbn [Nat.add length] in Hgt.
  rewrite grid_point_0, <- Zlt_Qlt in Hgt. lia.
Qed.

(** [resample_body] in terms of the rows and of the empty windows. *)
Lemma resample_body_unfold (df : DataFrame) (by_ : string) (inc_amt : Q)
    (grid : list Q) :
  resample_body df by_ inc_amt grid
  = let end_ :=
      stop_point_of inc_amt (rev (empty_window_grid_points df inc_amt grid)) in
    match loc_upto end_ (full_table df inc_amt grid) with
    | None => Raise KeyError
    | Some rs =>
        Ok ({| index_name := Some by_;
               columns := match grid with [] => [] | _ :: _ => columns df end;
               rows := rs |},
            (grid, end_))
    end.
Proof.
  unfold resample_body.
  assert (H0 : ({[ 1%positive := [] ]} : gmap loc (list Q)) !! 1%positive
               = Some []) by apply lookup_singleton_eq.
  rewrite (bind_Some _ _ _ _ _
             (resample_loop_spec df inc_amt 1%positive grid [] _ [] H0)).
  cbn [app].
  erewrite bind_Some
    by (apply check_resample_spec, lookup_insert_eq).
  unfold ret. cbv zeta. unfold full_table.
  now destruct grid.
Qed.

Lemma resample_trace_unfold (fuel : nat) (df : DataFrame) (by_ : string)
    (inc_amt : Q) (grid : list Q) :
  resample_range fuel df inc_amt = Ok grid ->
  resample_trace fuel df by_ inc_amt
  = let end_ :=
      stop_point_of inc_amt (rev (empty_window_grid_points df inc_amt grid)) in
    match loc_upto end_ (full_table df inc_amt grid) with
    | None => Raise KeyError
    | Some rs =>
        Ok ({| index_name := Some by_; columns := columns df; rows := rs |},
            (grid, end_))
    end.
Proof.
  intros Hr. unfold resample_trace. rewrite Hr, resample_body_unfold.
  apply resample_range_nonempty in Hr. now destruct grid.
Qed.

(** ** Order of the grid and of the returned table *)

Lemma StronglySorted_filter {A} (R : A -> A -> Prop) (f : A -> bool)
    (l : list A) :
  StronglySorted R l -> StronglySorted R (List.filter f l).
Proof.
  induction 1 as [|a l Hs IH Hall]; cbn; [constructor|].
  destruct (f a); [|assumption].
  constructor; [assumption|].
  rewrite List.Forall_forall in *. intros x Hx.
  apply filter_In in Hx. now apply Hall.
Qed.

Lemma StronglySorted_snoc {A} (R : A -> A -> Prop) (l : list A) (a : A) :
  StronglySorted R l -> Forall (fun x => R x a) l ->
  StronglySorted R (l ++ [a]).
Proof.
  induction 1 as [|b l Hs IH Hall]; intros Ha; cbn.
  - repeat constructor.
  - inversion Ha as [|? ? Hba Ha']; subst.
    constructor; [now apply IH|].
    apply List.Forall_app. split; [assumption|now constructor].
Qed.

Lemma StronglySorted_snoc_inv {A} (R : A -> A -> Prop) (l : list A) (a : A) :
  StronglySorted R (l ++ [a]) -> Forall (fun x => R x a) l.
Proof.
  induction l as [|b l IH]; cbn; intros H; [constructor|].
  apply StronglySorted_inv in H. destruct H as [Hs Hall].
  constructor; [|now apply IH].
  apply List.Forall_app in Hall. destruct Hall as [_ Hall].
  now inversion Hall.
Qed.

Lemma StronglySorted_prefix {A} (R : A -> A -> Prop) (l1 l2 : list A) :
  StronglySorted R (l1 ++ l2) -> StronglySorted R l1.
Proof.
  induction l1 as [|b l1 IH]; cbn; intros H; [constructor|].
  apply StronglySorted_inv in H. destruct H as [Hs Hall].
  constructor; [now apply IH|].
  apply List.Forall_app in Hall. tauto.
Qed.

Lemma StronglySorted_rev {A} (R : A -> A -> Prop) (l : list A) :
  StronglySorted R l -> StronglySorted (fun x y => R y x) (rev l).
Proof.
  induction 1 as [|a l Hs IH Hall]; cbn; [constructor|].
  apply StronglySorted_snoc; [assumption|].
  now apply List.Forall_rev.
Qed.

Lemma StronglySorted_map {A B} (R : A -> A -> Prop) (R' : B -> B -> Prop)
    (f : A -> B) (l : list A) :
  (forall x y, R x y -> R' (f x) (f y)) ->
  StronglySorted R l -> StronglySorted R' (map f l).
Proof.
  intros Hf. induction 1 as [|a l Hs IH Hall]; cbn; constructor;
    [assumption|].
  apply List.Forall_map. eapply List.Forall_impl; [|exact Hall].
  intros x. apply Hf.
Qed.

Lemma grid_sorted (top : Z) (inc_amt : Q) (n i : nat) :
  0 < inc_amt ->
  StronglySorted Qlt (map (grid_point top inc_amt) (seq i n)).
Proof.
  intros Hinc. revert i. induction n as [|n IH]; intros i; cbn;
    constructor; [apply IH|].
  apply List.Forall_map, List.Forall_forall. intros j Hj.
  apply in_seq in Hj. apply grid_point_lt; [assumption|lia].
Qed.

Lemma grid_point_antitone (top : Z) (inc_amt : Q) (i j : nat) :
  inc_amt <= 0 -> (i <= j)%nat ->
  grid_point top inc_amt j <= grid_point top inc_amt i.
Proof.
  intros Hinc Hij. induction Hij as [|j Hij IH]; [lra|].
  rewrite grid_point_S. lra.
Qed.

(** Whenever the generator returns, its grid is strictly ascending. *)
Lemma frange_sorted (fuel : nat) (top bot : Z) (inc_amt : Q) (grid : list Q) :
  frange fuel top bot inc_amt = Some grid -> StronglySorted Qlt grid.
Proof.
  intros H. apply frange_from_sound in H. destruct H as (Hg & Hle & Hgt).
  rewrite Hg. destruct (length grid) as [|n]; [constructor|].
  apply grid_sorted.
  assert (H0 := Hle O ltac:(lia)).
  cbn [Nat.add] in Hgt.
  destruct (Qlt_le_dec 0 inc_amt) as [?|Hneg]; [assumption|].
  exfalso.
  assert (H1 := grid_point_antitone top inc_amt 0 (S n) Hneg ltac:(lia)).
  lra.
Qed.

Lemma combine_map_same {A B C} (f : A -> B) (g : A -> C) (l : list A) :
  combine (map f l) (map g l) = map (fun x => (f x, g x)) l.
Proof. induction l as [|a l IH]; cbn; [reflexivity|now rewrite IH]. Qed.

Lemma full_table_keys (df : DataFrame) (inc_amt : Q) (grid : list Q) :
  map fst (full_table df inc_amt grid) = rev (map Some grid).
Proof.
  unfold full_table. rewrite combine_map_same, map_rev, map_map.
  reflexivity.
Qed.

Lemma full_table_sorted (df : DataFrame) (inc_amt : Q) (grid : list Q) :
  StronglySorted Qlt grid ->
  StronglySorted label_gt (map fst (full_table df inc_amt grid)).
Proof.
  intros Hs. rewrite full_table_keys, <- map_rev.
  apply (StronglySorted_map (fun x y => y < x)); [now intros x y|].
  now apply StronglySorted_rev.
Qed.

(** ** Truncation at the cutoff *)

Lemma upto_label_prefix (c : Q) (rs out : list (value * list value)) :
  upto_label c rs = Some out ->
  exists pre r rest,
    out = pre ++ [r] /\ rs = out ++ rest /\ label_is c (fst r) = true.
Proof.
  revert out. induction rs as [|r rs IH]; intros out H; [discriminate|].
  cbn [upto_label] in H. destruct (label_is c (fst r)) eqn:E.
  - injection H as <-. now exists [], r, rs.
  - destruct (upto_label c rs) as [out'|]; [|discriminate].
    injection H as <-.
    destruct (IH out' eq_refl) as (pre & r' & rest & -> & -> & Hr').
    exists (r :: pre), r', rest. repeat split; assumption.
Qed.

Lemma upto_label_found (c : Q) (rs : list (value * list value)) :
  (exists r, In r rs /\ label_is c (fst r) = true) ->
  exists out, upto_label c rs = Some out.
Proof.
  induction rs as [|r rs IH]; intros (r' & Hin & Hr'); [destruct Hin|].
  cbn [upto_label]. destruct (label_is c (fst r)) eqn:E; [eauto|].
  destruct Hin as [->|Hin]; [congruence|].
  destruct IH as [out ->]; [now exists r'|]. cbn. eauto.
Qed.

(** The stop point is one of the scanned entries. *)
Lemma stop_point_of_In (inc_amt : Q) (r : list Q) (g : Q) :
  stop_point_of inc_amt r = Some g -> In g r.
Proof.
  intros H. apply stop_point_of_Some in H.
  destruct H as (i & _ & Hg & _).
  apply list_elem_of_In, list_elem_of_lookup. eauto.
Qed.

Lemma label_is_refl (c : Q) : label_is c (Some c) = true.
Proof. cbn. apply Qeq_bool_iff. reflexivity. Qed.

(** The label [end] is always found: [loc] does not raise. *)
Lemma loc_upto_total (df : DataFrame) (inc_amt : Q) (grid : list Q) :
  exists rs,
    loc_upto
      (stop_point_of inc_amt (rev (empty_window_grid_points df inc_amt grid)))
      (full_table df inc_amt grid) = Some rs.
Proof.
  destruct (stop_point_of _ _) as [c|] eqn:E; cbn; [|eauto].
  apply upto_label_found.
  apply stop_point_of_In, in_rev in E.
  unfold empty_window_grid_points in E. apply filter_In in E.
  destruct E as [Hc _].
  exists (Some c, resampled_row df inc_amt c). split; [|apply label_is_refl].
  unfold full_table. rewrite combine_map_same, <- in_rev.
  apply in_map_iff. now exists c.
Qed.

(** [resample] returns as soon as its grid does. *)
Lemma resample_trace_total (fuel : nat) (df : DataFrame) (by_ : string)
    (inc_amt : Q) (grid : list Q) :
  resample_range fuel df inc_amt = Ok grid ->
  exists t end_, resample_trace fuel df by_ inc_amt = Ok (t, (grid, end_)).
Proof.
  intros Hr. rewrite (resample_trace_unfold _ _ _ _ _ Hr). cbv zeta.
  destruct (loc_upto_total df inc_amt grid) as [rs ->]. eauto.
Qed.

(** For a positive increment and a table with a key present, [resample]
    returns a table, given fuel for the grid. *)
Lemma resample_total (fuel : nat) (df : DataFrame) (by_ : string)
    (inc_amt lo hi : Q) :
  index_min df = Some lo -> index_max df = Some hi -> 0 < inc_amt ->
  (grid_size (py_int lo) (py_int hi) inc_amt < fuel)%nat ->
  exists t, resample fuel df by_ inc_amt = Ok t.
Proof.
  intros Hlo Hhi Hinc Hfuel.
  assert (Hr := resample_range_total df inc_amt lo hi fuel Hlo Hhi Hinc Hfuel).
  destruct (resample_trace_total fuel df by_ inc_amt _ Hr) as (t & e & Ht).
  exists t. unfold resample. now rewrite Ht.
Qed.

Lemma resample_range_sorted (fuel : nat) (df : DataFrame) (inc_amt : Q)
    (grid : list Q) :
  resample_range fuel df inc_amt = Ok grid -> StronglySorted Qlt grid.
Proof.
  intros H. apply resample_range_sound in H.
  destruct H as (lo & hi & _ & _ & H). eapply frange_sorted, H.
Qed.

Lemma filter_none {A} (f : A -> bool) (l : list A) :
  (forall y, In y l -> f y = false) -> List.filter f l = [].
Proof.
  induction l as [|a l IH]; intros H; cbn; [reflexivity|].
  rewrite (H a (or_introl eq_refl)). apply IH. intros y Hy. apply H. now right.
Qed.

Lemma full_table_map (df : DataFrame) (inc_amt : Q) (grid : list Q) :
  full_table df inc_amt grid
  = map (fun g => (Some g, resampled_row df inc_amt g)) (rev grid).
Proof. unfold full_table. now rewrite combine_map_same, map_rev. Qed.

(** On labels in strictly descending order, [loc[:c]] keeps the rows whose
    label is at least [c]. *)
Lemma upto_label_descending (row : Q -> list value) (c : Q) :
  forall (L : list Q),
    StronglySorted (fun x y => y < x) L -> In c L ->
    upto_label c (map (fun g => (Some g, row g)) L)
    = Some (map (fun g => (Some g, row g)) (List.filter (Qle_bool c) L)).
Proof.
  induction L as [|a L IH]; intros Hs Hc; [destruct Hc|].
  apply StronglySorted_inv in Hs. destruct Hs as [Hs Hall].
  rewrite List.Forall_forall in Hall.
  cbn [map upto_label List.filter fst label_is].
  destruct (Qeq_bool a c) eqn:E.
  - apply Qeq_bool_iff in E.
    assert (Hle : Qle_bool c a = true) by (apply Qle_bool_iff; lra).
    rewrite Hle, filter_none; [reflexivity|].
    intros y Hy. specialize (Hall y Hy). cbn in Hall.
    destruct (Qle_bool c y) eqn:Ey; [|reflexivity].
    apply Qle_bool_iff in Ey. lra.
  - destruct Hc as [->|Hc].
    + assert (Qeq_bool c c = true) by (apply Qeq_bool_iff; reflexivity).
      congruence.
    + assert (Hlt := Hall c Hc). cbn in Hlt.
      assert (Hle : Qle_bool c a = true) by (apply Qle_bool_iff; lra).
      rewrite Hle, (IH Hs Hc). reflexivity.
Qed.

Lemma filter_map_comm {A B} (f : B -> bool) (g : A -> B) (l : list A) :
  List.filter f (map g l) = map g (List.filter (fun a => f (g a)) l).
Proof.
  induction l as [|a l IH]; [reflexivity|].
  cbn [map List.filter]. rewrite IH. now destruct (f (g a)).
Qed.

(** C5, as the specification states it, fails: resampled at increment 1,
    the table with data at key 0 only and keys up to 7 has the cutoff 2,
    and the table returned holds the keys 7 down to 2.  Rows deeper than
    the cutoff remain: they are the ones that are kept. *)
Lemma resample_cutoff_counterexample :
  exists t,
    resample_trace 20 sparse_table "depth" 1
    = Ok (t, ([0; 1; 2; 3; 4; 5; 6; 7], Some 2))
    /\ keys t = [Some 7; Some 6; Some 5; Some 4; Some 3; Some 2]
    /\ ~ (forall k, In (Some k) (keys t) -> k <= 2).
Proof.
  eexists. split; [vm_compute; reflexivity|].
  split; [reflexivity|].
  intros H. specialize (H 7 (or_introl eq_refl)). lra.
Qed.

(** C5 (amended).  For a table with a key present and a positive
    increment, [resample] returns a table, given fuel for the grid, and the
    table is in strictly descending key order.  With [grid] the grid it
    generates, [df_new] the rows of its loop and [end] the result of
    [check_resample] on the list of empty windows the loop leaves: when
    [end] is [None] the table holds every grid row, in reversed grid order;
    when [end] is a cutoff [c], [c] is a grid point and the table holds
    exactly the grid rows whose key is at least [c], the rows of smaller
    keys being removed and those of larger keys kept. *)
Theorem resample_order_and_cutoff (fuel : nat) (df : DataFrame)
    (by_ : string) (inc_amt lo hi : Q) :
  index_min df = Some lo -> index_max df = Some hi -> 0 < inc_amt ->
  (grid_size (py_int lo) (py_int hi) inc_amt < fuel)%nat ->
  exists (grid : list Q) (t : DataFrame) (df_new : list (list value))
         (h1 : gmap loc (list Q)) (end_ : option Q) (h2 : gmap loc (list Q)),
    resample_range fuel df inc_amt = Ok grid
    /\ resample fuel df by_ inc_amt = Ok t
    /\ resample_loop df (inc_amt / 2) 1%positive grid []
                     {[ 1%positive := [] ]} = Some (df_new, h1)
    /\ check_resample 1%positive inc_amt h1 = Some (end_, h2)
    /\ StronglySorted label_gt (keys t)
    /\ match end_ with
       | None => rows t = rev (combine (map Some grid) df_new)
       | Some c =>
           In c grid
           /\ rows t
              = List.filter
                  (fun r => match fst r with
                            | Some k => Qle_bool c k
                            | None => false
                            end)
                  (rev (combine (map Some grid) df_new))
       end.
Proof.
  intros Hlo Hhi Hinc Hfuel.
  assert (Hr := resample_range_total df inc_amt lo hi fuel Hlo Hhi Hinc Hfuel).
  set (grid := map (grid_point (py_int lo) inc_amt)
                   (seq 0 (grid_size (py_int lo) (py_int hi) inc_amt))) in *.
  exists grid.
  assert (H0 : ({[ 1%positive := [] ]} : gmap loc (list Q)) !! 1%positive
               = Some []) by apply lookup_singleton_eq.
  assert (Hloop := resample_loop_spec df inc_amt 1%positive grid [] _ [] H0).
  cbn [app] in Hloop.
  assert (Hsorted := resample_range_sorted _ _ _ _ Hr).
  set (empties := empty_window_grid_points df inc_amt grid) in *.
  assert (Hcheck : check_resample 1%positive inc_amt
                     (<[1%positive := empties]> {[ 1%positive := [] ]})
                   = Some (stop_point_of inc_amt (rev empties),
                           <[1%positive := rev empties]>
                             (<[1%positive := empties]> {[ 1%positive := [] ]})))
    by apply check_resample_spec, lookup_insert_eq.
  assert (Ht := resample_trace_unfold fuel df by_ inc_amt grid Hr).
  cbv zeta in Ht. fold empties in Ht.
  fold (full_table df inc_amt grid).
  destruct (stop_point_of inc_amt (rev empties)) as [c|] eqn:Ec;
    cbn [loc_upto] in Ht.
  - assert (Hc : In c grid).
    { apply stop_point_of_In, in_rev in Ec. unfold empties in Ec.
      unfold empty_window_grid_points in Ec. now apply filter_In in Ec. }
    rewrite full_table_map in Ht.
    rewrite upto_label_descending in Ht;
      [|now apply StronglySorted_rev|now apply in_rev in Hc].
    eexists. exists (map (resampled_row df inc_amt) grid).
    eexists. exists (Some c). eexists.
    split; [exact Hr|].
    split; [unfold resample; rewrite Ht; reflexivity|].
    split; [exact Hloop|]. split; [exact Hcheck|].
    unfold keys. cbn [rows]. split.
    + rewrite map_map. cbn [fst].
      apply (StronglySorted_map (fun x y => y < x)); [now intros x y|].
      apply StronglySorted_filter. now apply StronglySorted_rev.
    + split; [exact Hc|].
      fold (full_table df inc_amt grid). rewrite full_table_map.
      now rewrite filter_map_comm.
  - eexists. exists (map (resampled_row df inc_amt) grid).
    eexists. exists None. eexists.
    split; [exact Hr|].
    split; [unfold resample; rewrite Ht; reflexivity|].
    split; [exact Hloop|]. split; [exact Hcheck|].
    unfold keys. cbn [rows]. split; [now apply full_table_sorted|].
    reflexivity.
Qed.

Lemma resample_order_and_cutoff_witness :
  exists (grid : list Q) (t : DataFrame) (df_new : list (list value))
         (h1 : gmap loc (list Q)) (end_ : option Q) (h2 : gmap loc (list Q)),
    resample_range 20 sparse_table 1 = Ok grid
    /\ resample 20 sparse_table "depth" 1 = Ok t
    /\ resample_loop sparse_table (1 / 2) 1%positive grid []
                     {[ 1%positive := [] ]} = Some (df_new, h1)
    /\ check_resample 1%positive 1 h1 = Some (end_, h2)
    /\ StronglySorted label_gt (keys t)
    /\ match end_ with
       | None => rows t = rev (combine (map Some grid) df_new)
       | Some c =>
           In c grid
           /\ rows t
              = List.filter
                  (fun r => match fst r with
                            | Some k => Qle_bool c k
                            | None => false
                            end)
                  (rev (combine (map Some grid) df_new))
       end.
Proof.
  apply (resample_order_and_cutoff 20 sparse_table "depth" 1 0 7);
    [reflexivity | reflexivity | lra | vm_compute; lia].
Defined.

(** The cutoff of [sparse_table] is 2: the rows of keys 1 and 0 are
    dropped, the one with data among them. *)
Example sparse_table_cutoff :
  snd (snd sparse_result) = Some 2
  /\ keys (fst sparse_result)
     = [Some 7; Some 6; Some 5; Some 4; Some 3; Some 2].
Proof. split; reflexivity. Qed.

(** ** Windows and means *)

Lemma Qlt_bool_iff (a b : Q) : Qlt_bool a b = true <-> a < b.
Proof.
  unfold Qlt_bool. rewrite negb_true_iff. split.
  - intros H. destruct (Qlt_le_dec a b) as [?|Hle]; [assumption|].
    apply Qle_bool_iff in Hle. congruence.
  - intros H. destruct (Qle_bool b a) eqn:E; [|reflexivity].
    apply Qle_bool_iff in E. lra.
Qed.

Lemma in_window_iff (lo hi : Q) (k : value) :
  in_window lo hi k = true <-> exists q, k = Some q /\ lo <= q /\ q < hi.
Proof.
  unfold in_window. destruct k as [q|].
  - rewrite andb_true_iff, Qle_bool_iff, Qlt_bool_iff. split.
    + intros [? ?]. now exists q.
    + intros (q' & [= <-] & ? & ?). now split.
  - split; [discriminate|]. intros (q & H & _). discriminate.
Qed.

(** The records a window selects. *)
Lemma window_In (df : DataFrame) (g inc : Q) (r : value * list value) :
  In r (window df g inc) <->
  In r (rows df) /\ exists k, fst r = Some k /\ g - inc <= k /\ k < g + inc.
Proof. unfold window. now rewrite filter_In, in_window_iff. Qed.



Lemma frame_mean_length (df : DataFrame) (idx : list (value * list value)) :
  length (frame_mean df idx) = length (columns df).
Proof. unfold frame_mean. now rewrite length_map, length_seq. Qed.

Lemma frame_mean_nth (df : DataFrame) (idx : list (value * list value))
    (c : nat) (m : value) :
  nth_error (frame_mean df idx) c = Some m ->
  (c < length (columns df))%nat /\ m = mean (column c idx).
Proof. unfold frame_mean. intros H. now apply nth_error_map_seq in H. Qed.

Lemma all_null_Forall (row : list value) :
  all_null row = true <-> Forall (fun m => m = None) row.
Proof.
  unfold all_null. rewrite forallb_forall, List.Forall_forall.
  split; intros H m Hm; specialize (H m Hm); now destruct m.
Qed.

Lemma present_nil_iff (vs : list value) :
  present vs = [] <-> forall k, In k vs -> k = None.
Proof.
  induction vs as [|[q|] vs IH]; cbn.
  - split; [intros _ k []|reflexivity].
  - split; [discriminate|]. intros H. discriminate (H (Some q) (or_introl eq_refl)).
  - rewrite IH. split.
    + intros H k [<-|Hk]; [reflexivity|now apply H].
    + intros H k Hk. apply H. now right.
Qed.





(** The rows and the empty windows of the loop on [sparse_table]: the one
    value at key 0, and the grid points 1 to 7 in ascending order. *)
Example sparse_table_loop :
  resample_loop sparse_table (1 / 2) 1%positive [0; 1; 2; 3; 4; 5; 6; 7] []
                {[ 1%positive := [] ]}
  = Some ([[Some 5]; [None]; [None]; [None]; [None]; [None]; [None]; [None]],
          <[1%positive := [1; 2; 3; 4; 5; 6; 7]]> {[ 1%positive := [] ]}).
Proof.
  assert (H0 : ({[ 1%positive := [] ]} : gmap loc (list Q)) !! 1%positive
               = Some []) by apply lookup_singleton_eq.
  rewrite (resample_loop_spec sparse_table 1 1%positive _ [] _ [] H0).
  reflexivity.
Qed.

(** Two records in one window: the cell is their mean. *)
Example scenario_window_mean :
  resampled_row scenario_table 2 2 = [Some (5 # 2)].
Proof. reflexivity. Qed.

(** ** The scenario of the specification *)

(** C4, as the specification states it, fails: the first window,
    [[-1, 1)], holds the single record of key 0, whose value is 1, and the
    specification expects 1.5 there. *)
Lemma scenario_means_counterexample :
  exists t,
    resample 20 scenario_table "depth" 2 = Ok t
    /\ ~ Forall2 row_eq (rev (rows t))
                 (one_column scenario_grid scenario_claimed_means).
Proof.
  eexists. split; [vm_compute; reflexivity|].
  intros H. inversion H as [|r s rs ss [_ Hcells] _]; subst.
  inversion Hcells as [|a b ? ? Hab _]; subst.
  vm_compute in Hab. discriminate.
Qed.

(** C4 (amended).  On the scenario table with increment 2, [resample]
    generates the grid 0, 2, 4, 6, 8, 10, finds no empty window and no
    cutoff, and returns, in descending key order, the means
    1, 2.5, 4.5, 6.5, 8.5, 10.5 of the windows [[g - 1, g + 1)]. *)
Theorem scenario_resample (fuel : nat) :
  (6 < fuel)%nat ->
  exists t,
    resample_trace fuel scenario_table "depth" 2
    = Ok (t, (scenario_grid, None))
    /\ rows t = rev (one_column scenario_grid scenario_means)
    /\ empty_window_grid_points scenario_table 2 scenario_grid = [].
Proof.
  intros Hfuel.
  assert (Hr : resample_range fuel scenario_table 2 = Ok scenario_grid).
  { rewrite (resample_range_total scenario_table 2 0 10 fuel);
      [vm_compute; reflexivity|reflexivity|reflexivity|reflexivity|].
    exact Hfuel. }
  rewrite (resample_trace_unfold _ _ _ _ _ Hr).
  eexists. split; [vm_compute; reflexivity|]. split; reflexivity.
Qed.

Lemma scenario_resample_witness :
  exists t,
    resample_trace 20 scenario_table "depth" 2
    = Ok (t, (scenario_grid, None))
    /\ rows t = rev (one_column scenario_grid scenario_means)
    /\ empty_window_grid_points scenario_table 2 scenario_grid = [].
Proof. apply (scenario_resample 20). lia. Defined.

(** ** Non-positive increments *)

(** [resample] with [frange] is [resample_with] at that generator. *)
Lemma resample_trace_with (fuel : nat) (df : DataFrame) (by_ : string)
    (inc_amt : Q) :
  resample_trace fuel df by_ inc_amt
  = resample_with (frange_gen fuel) df by_ inc_amt.
Proof.
  unfold resample_trace, resample_with, resample_range, frange_gen.
  destruct (index_min df); [|reflexivity].
  destruct (index_max df); [|reflexivity].
  cbv zeta. now destruct (frange fuel _ _ inc_amt).
Qed.

(** No key lies in a window whose width is not positive. *)
Lemma window_nonpositive (df : DataFrame) (g inc_amt : Q) :
  inc_amt <= 0 -> window df g (inc_amt / 2) = [].
Proof.
  intros Hinc. unfold window.
  induction (rows df) as [|r rs IH]; [reflexivity|].
  cbn [List.filter]. rewrite IH.
  destruct (in_window _ _ (fst r)) eqn:E; [|reflexivity].
  apply in_window_iff in E. destruct E as (k & _ & H1 & H2).
  assert (E : inc_amt == 2 * (inc_amt / 2)) by field.
  clear IH. set (x := inc_amt / 2) in *. clearbody x. lra.
Qed.

Lemma frame_mean_nil (df : DataFrame) :
  frame_mean df [] = repeat None (length (columns df)).
Proof.
  unfold frame_mean. generalize 0%nat.
  induction (length (columns df)) as [|n IH]; intros a; [reflexivity|].
  cbn [seq map repeat]. now rewrite IH.
Qed.

Lemma filter_true {A} (f : A -> bool) (l : list A) :
  (forall x, In x l -> f x = true) -> List.filter f l = l.
Proof.
  induction l as [|a l IH]; intros H; [reflexivity|].
  cbn [List.filter]. rewrite (H a (or_introl eq_refl)), IH; [reflexivity|].
  intros x Hx. apply H. now right.
Qed.

Lemma all_null_repeat (n : nat) : all_null (repeat None n) = true.
Proof. induction n as [|n IH]; [reflexivity|exact IH]. Qed.

(** C7, as the specification states it, fails: at the increments 0 and -2
    [resample] raises nothing of its own and calls the grid generator; what
    it does is what the generator does.  With a generator that returns the
    one point 0 it returns a table of one row, with one that raises it
    raises the same exception, with one that does not return it does not
    return. *)
Lemma nonpositive_increment_counterexample :
  resample_with (fun _ _ _ => Ok [0]) scenario_table "depth" 0
  = Ok ({| index_name := Some "depth"%string;
           columns := ["x"%string];
           rows := [(Some 0, [None])] |}, ([0], None))
  /\ resample_with (fun _ _ _ => Raise (OtherError "frange")) scenario_table
       "depth" 0
     = Raise (OtherError "frange")
  /\ resample_with (fun _ _ _ => Timeout) scenario_table "depth" (-2)
     = Timeout.
Proof. repeat split; vm_compute; reflexivity. Qed.

(** C7 (amended).  [resample] does not check its increment.  For a table
    with a key present and an increment that is not positive it computes
    [top] and [bot] and calls the grid generator with that increment; when
    the generator raises, [resample] raises the same exception, when it does
    not return, neither does [resample], and when it returns a grid,
    [resample] goes on with it: every window is empty, so the loop appends
    for each grid point a row without any value and records every grid
    point as an empty window. *)
Theorem nonpositive_increment_no_check
    (gen : Z -> Z -> Q -> outcome (list Q)) (df : DataFrame) (by_ : string)
    (inc_amt lo hi : Q) :
  index_min df = Some lo -> index_max df = Some hi -> inc_amt <= 0 ->
  match gen (py_int lo) (py_int hi) inc_amt with
  | Raise e => resample_with gen df by_ inc_amt = Raise e
  | Timeout => resample_with gen df by_ inc_amt = Timeout
  | Ok grid =>
      resample_with gen df by_ inc_amt = resample_body df by_ inc_amt grid
      /\ resample_loop df (inc_amt / 2) 1%positive grid []
                       {[ 1%positive := [] ]}
         = Some (map (fun _ => repeat None (length (columns df))) grid,
                 {[ 1%positive := grid ]})
  end.
Proof.
  intros Hlo Hhi Hinc. unfold resample_with. rewrite Hlo, Hhi. cbv zeta.
  destruct (gen (py_int lo) (py_int hi) inc_amt) as [grid|e|];
    [|reflexivity|reflexivity].
  split; [reflexivity|].
  assert (H0 : ({[ 1%positive := [] ]} : gmap loc (list Q)) !! 1%positive
               = Some []) by apply lookup_singleton_eq.
  rewrite (resample_loop_spec df inc_amt 1%positive grid [] _ [] H0).
  cbn [app]. rewrite insert_singleton_eq.
  assert (Hrow : forall g, resampled_row df inc_amt g
                           = repeat None (length (columns df))).
  { intros g. unfold resampled_row.
    now rewrite (window_nonpositive df g inc_amt Hinc), frame_mean_nil. }
  f_equal. f_equal.
  - apply map_ext. intros g. apply Hrow.
  - f_equal. unfold empty_window_grid_points. apply filter_true.
    intros g _. rewrite Hrow. apply all_null_repeat.
Qed.

Lemma nonpositive_increment_no_check_witness :
  resample_with (fun _ _ _ => Ok [0; -2]) scenario_table "depth" (-2)
  = resample_body scenario_table "depth" (-2) [0; -2]
  /\ resample_loop scenario_table (-2 / 2) 1%positive [0; -2] []
                   {[ 1%positive := [] ]}
     = Some (map (fun _ => repeat None (length (columns scenario_table)))
                 [0; -2],
             {[ 1%positive := [0; -2] ]}).
Proof.
  apply (nonpositive_increment_no_check (fun _ _ _ => Ok [0; -2])
           scenario_table "depth" (-2) 0 10);
    [reflexivity | reflexivity | lra].
Defined.

(** ** A key column that is not in the table *)

(** C8, as the specification states it, fails: asked to resample the
    scenario table by ["year"], which it does not have, [set_resample]
    prints the complaint of [set_index] and still hands a resampled table of
    six rows, binned on the default index, to the writer; when the writer
    returns, the batch ends well with that table written. *)
Lemma missing_column_counterexample :
  exists t,
    set_resample (fun _ _ _ _ _ => Ok tt) 20 scenario_raw ["year"%string] [2]
      "Year"
    = Ok {| printed := [not_found_message "year"];
            written := [("year"%string, 2, t)] |}
    /\ length (rows t) = 6%nat.
Proof. eexists. split; [vm_compute; reflexivity|reflexivity]. Qed.

(** C8 (amended).  When the key column is not in the table (and is not
    the name of its index), [set_index] prints that the column is not found
    and returns the table as it was.  The request is not aborted by this:
    [resample] runs on that table, binning on the index it already has, and
    the request ends as [resample] and then the writer end.  For a positive
    increment and an index that holds a key [resample] returns a table; it
    is handed to the writer, and when the writer returns the batch goes on
    with the next increment.  An exception of [resample] or of the writer
    ends the batch. *)
Theorem missing_column_request (out : writer) (fuel : nat) (df : DataFrame)
    (name b : string) (i : Q) (log : batch_log) :
  col_pos b (columns df) = None ->
  index_name_is df b = false ->
  set_index df b = (df, [not_found_message b])
  /\ resample_request out fuel df name b i log
     = match resample fuel df b i with
       | Ok t =>
           match out name b i t df with
           | Ok _ => Ok {| printed := printed log ++ [not_found_message b];
                           written := written log ++ [(b, i, t)] |}
           | Raise e => Raise e
           | Timeout => Timeout
           end
       | Raise e => Raise e
       | Timeout => Timeout
       end
  /\ (forall rest e,
         resample_request out fuel df name b i log = Raise e ->
         set_resample_incs out fuel df name b (i :: rest) log = Raise e)
  /\ (forall lo hi,
         index_min df = Some lo -> index_max df = Some hi -> 0 < i ->
         (grid_size (py_int lo) (py_int hi) i < fuel)%nat ->
         exists t,
           resample fuel df b i = Ok t
           /\ forall u rest,
                out name b i t df = Ok u ->
                set_resample_incs out fuel df name b (i :: rest) log
                = set_resample_incs out fuel df name b rest
                    {| printed := printed log ++ [not_found_message b];
                       written := written log ++ [(b, i, t)] |}).
Proof.
  intros Hcol Hname.
  assert (Hset : set_index df b = (df, [not_found_message b])).
  { unfold set_index, pd_set_index. now rewrite Hname, Hcol. }
  assert (Hreq : resample_request out fuel df name b i log
                 = match resample fuel df b i with
                   | Ok t =>
                       match out name b i t df with
                       | Ok _ =>
                           Ok {| printed := printed log ++ [not_found_message b];
                                 written := written log ++ [(b, i, t)] |}
                       | Raise e => Raise e
                       | Timeout => Timeout
                       end
                   | Raise e => Raise e
                   | Timeout => Timeout
                   end).
  { unfold resample_request. now rewrite Hset. }
  split; [exact Hset|]. split; [exact Hreq|]. split.
  - intros rest e He. cbn [set_resample_incs]. now rewrite He.
  - intros lo hi Hlo Hhi Hi Hfuel.
    destruct (resample_total fuel df b i lo hi Hlo Hhi Hi Hfuel) as (t & Ht).
    exists t. split; [exact Ht|].
    intros u rest Hu. cbn [set_resample_incs].
    now rewrite Hreq, Ht, Hu.
Qed.

Lemma missing_column_request_witness :
  set_index scenario_raw "year" = (scenario_raw, [not_found_message "year"])
  /\ resample_request (fun _ _ _ _ _ => Ok tt) 20 scenario_raw "Year" "year" 2
       (mkLog [] [])
     = match resample 20 scenario_raw "year" 2 with
       | Ok t =>
           match (fun _ _ _ _ _ => Ok tt) "Year"%string "year"%string 2 t
                   scenario_raw with
           | Ok _ =>
               Ok {| printed := printed (mkLog [] [])
                                ++ [not_found_message "year"];
                     written := written (mkLog [] [])
                                ++ [("year"%string, 2, t)] |}
           | Raise e => Raise e
           | Timeout => Timeout
           end
       | Raise e => Raise e
       | Timeout => Timeout
       end
  /\ (forall rest e,
         resample_request (fun _ _ _ _ _ => Ok tt) 20 scenario_raw "Year"
           "year" 2 (mkLog [] []) = Raise e ->
         set_resample_incs (fun _ _ _ _ _ => Ok tt) 20 scenario_raw "Year"
           "year" (2 :: rest) (mkLog [] []) = Raise e)
  /\ (forall lo hi,
         index_min scenario_raw = Some lo ->
         index_max scenario_raw = Some hi -> 0 < 2 ->
         (grid_size (py_int lo) (py_int hi) 2 < 20)%nat ->
         exists t,
           resample 20 scenario_raw "year" 2 = Ok t
           /\ forall u rest,
                (fun _ _ _ _ _ => Ok tt) "Year"%string "year"%string 2 t
                  scenario_raw = Ok u ->
                set_resample_incs (fun _ _ _ _ _ => Ok tt) 20 scenario_raw
                  "Year" "year" (2 :: rest) (mkLog [] [])
                = set_resample_incs (fun _ _ _ _ _ => Ok tt) 20 scenario_raw
                    "Year" "year" rest
                    {| printed := printed (mkLog [] [])
                                  ++ [not_found_message "year"];
                       written := written (mkLog [] [])
                                  ++ [("year"%string, 2, t)] |}).
Proof.
  apply (missing_column_request (fun _ _ _ _ _ => Ok tt) 20 scenario_raw
           "Year" "year" 2 (mkLog [] []));
    reflexivity.
Defined.

(** ** Tables that lie on the grid *)

Lemma py_int_comp (x y : Q) : x == y -> py_int x = py_int y.
Proof.
  intros E. destruct (Qlt_le_dec x 0) as [Hx|Hx].
  - rewrite (py_int_neg x), (py_int_neg y) by lra.
    unfold Qceiling. f_equal. apply Qfloor_comp. lra.
  - rewrite (py_int_nonneg x), (py_int_nonneg y) by lra.
    now apply Qfloor_comp.
Qed.

Lemma fold_Qmin_In (ks : list Q) (k : Q) :
  In (fold_left Qmin_bool ks k) (k :: ks).
Proof.
  revert k. induction ks as [|a ks IH]; intros k; cbn [fold_left]; [now left|].
  destruct (IH (Qmin_bool k a)) as [H|H]; [|right; now right].
  rewrite <- H. unfold Qmin_bool.
  destruct (Qle_bool k a); [now left|right; now left].
Qed.

Lemma fold_Qmax_In (ks : list Q) (k : Q) :
  In (fold_left Qmax_bool ks k) (k :: ks).
Proof.
  revert k. induction ks as [|a ks IH]; intros k; cbn [fold_left]; [now left|].
  destruct (IH (Qmax_bool k a)) as [H|H]; [|right; now right].
  rewrite <- H. unfold Qmax_bool.
  destruct (Qle_bool k a); [right; now left|now left].
Qed.

(** [index_min] and [index_max] are labels of the table. *)
Lemma index_min_In (df : DataFrame) (lo : Q) :
  index_min df = Some lo -> In (Some lo) (keys df).
Proof.
  unfold index_min. intros H. apply present_In.
  destruct (present (keys df)) as [|k ks]; [discriminate|].
  injection H as <-. apply fold_Qmin_In.
Qed.

Lemma index_max_In (df : DataFrame) (hi : Q) :
  index_max df = Some hi -> In (Some hi) (keys df).
Proof.
  unfold index_max. intros H. apply present_In.
  destruct (present (keys df)) as [|k ks]; [discriminate|].
  injection H as <-. apply fold_Qmax_In.
Qed.

Lemma index_min_defined (df : DataFrame) (k : Q) :
  In (Some k) (keys df) ->
  exists lo hi, index_min df = Some lo /\ index_max df = Some hi.
Proof.
  intros H. apply present_In in H. unfold index_min, index_max.
  destruct (present (keys df)) as [|k0 ks]; [destruct H|]. eauto.
Qed.

Lemma grid_size_exact (top bot : Z) (inc_amt : Q) (k : nat) :
  0 < inc_amt ->
  grid_point top inc_amt k == inject_Z bot ->
  grid_size top bot inc_amt = S k.
Proof.
  intros Hinc Hk.
  set (N := grid_size top bot inc_amt).
  assert (Hfr := frange_total top bot inc_amt (S N) Hinc ltac:(fold N; lia)).
  fold N in Hfr.
  destruct (frange_from_sound _ _ _ _ _ _ Hfr) as (_ & Hle & Hgt).
  rewrite length_map, length_seq in Hle, Hgt. cbn [Nat.add] in Hle, Hgt.
  assert (Hn1 : (k < N)%nat).
  { destruct (Nat.lt_ge_cases k N) as [?|Hge]; [assumption|].
    assert (H := grid_point_le top inc_amt N k ltac:(lra) Hge). lra. }
  assert (Hn2 : ~ (S k < N)%nat).
  { intros Hlt. assert (H := Hle (S k) ltac:(lia)).
    rewrite grid_point_S in H. lra. }
  lia.
Qed.

(** A filter that accepts the element at position [i] and no other keeps
    that element alone. *)
Lemma filter_only_nth {A} (f : A -> bool) (l : list A) :
  forall (i : nat) (x : A),
    nth_error l i = Some x ->
    (forall j y, nth_error l j = Some y -> (f y = true <-> j = i)) ->
    List.filter f l = [x].
Proof.
  induction l as [|a l IH]; intros i x Hx Hf; [now destruct i|].
  destruct i as [|i]; cbn in Hx |- *.
  - injection Hx as ->.
    rewrite (proj2 (Hf O x eq_refl) eq_refl). f_equal.
    apply filter_none. intros y Hy.
    apply In_nth_error in Hy. destruct Hy as [j Hj].
    destruct (f y) eqn:E; [|reflexivity].
    apply (Hf (S j) y Hj) in E. discriminate.
  - destruct (f a) eqn:E.
    + apply (Hf O a eq_refl) in E. discriminate.
    + apply (IH i x Hx). intros j y Hj.
      rewrite (Hf (S j) y Hj). lia.
Qed.

Lemma Forall2_nth_error_intro {A B} (R : A -> B -> Prop) :
  forall (l1 : list A) (l2 : list B),
    length l1 = length l2 ->
    (forall i a b, nth_error l1 i = Some a -> nth_error l2 i = Some b -> R a b) ->
    Forall2 R l1 l2.
Proof.
  induction l1 as [|a l1 IH]; intros [|b l2] Hlen H; try discriminate;
    constructor.
  - apply (H O); reflexivity.
  - apply IH; [now injection Hlen|].
    intros i x y Hx Hy. apply (H (S i)); assumption.
Qed.

Lemma Forall2_rev_rev {A B} (R : A -> B -> Prop) (l1 : list A) (l2 : list B) :
  Forall2 R l1 l2 -> Forall2 R (rev l1) (rev l2).
Proof.
  induction 1 as [|a b l1 l2 Hab H IH]; cbn; [constructor|].
  apply List.Forall2_app; [assumption|]. now repeat constructor.
Qed.

(** On a table on the grid the window of the [i]-th grid point selects the
    [i]-th record and no other. *)
Lemma on_grid_window (df : DataFrame) (m : Z) (inc_amt : Q) (i : nat)
    (r : value * list value) :
  on_grid df m inc_amt -> 0 < inc_amt ->
  nth_error (rows df) i = Some r ->
  window df (grid_point m inc_amt i) (inc_amt / 2) = [r].
Proof.
  intros Hg Hinc Hr. unfold window.
  apply (filter_only_nth _ _ i r Hr). intros j y Hy.
  destruct (Hg j y Hy) as [(k & Hk & Ek) _]. rewrite Hk, in_window_iff.
  assert (Hhalf : inc_amt / 2 == inc_amt * (1 # 2)) by (field; lra).
  split.
  - intros (q & [= <-] & Hlo & Hhi). rewrite Ek, Hhalf in Hlo, Hhi.
    destruct (Nat.lt_trichotomy j i) as [Hlt|[->|Hgt]]; [|reflexivity|].
    + assert (H := grid_point_le m inc_amt (S j) i ltac:(lra) Hlt).
      rewrite grid_point_S in H. lra.
    + assert (H := grid_point_le m inc_amt (S i) j ltac:(lra) Hgt).
      rewrite grid_point_S in H. lra.
  - intros ->. exists k. split; [reflexivity|]. rewrite Ek, Hhalf. lra.
Qed.

(** The mean of a single value is this value. *)
Lemma mean_singleton (v : value) : value_eq (mean [v]) v.
Proof.
  destruct v as [q|]; cbn; [|exact I].
  unfold Qsum. cbn. field.
Qed.

Lemma on_grid_row (df : DataFrame) (m : Z) (inc_amt : Q) (i : nat)
    (r : value * list value) :
  on_grid df m inc_amt -> 0 < inc_amt ->
  nth_error (rows df) i = Some r ->
  Forall2 value_eq (resampled_row df inc_amt (grid_point m inc_amt i)) (snd r).
Proof.
  intros Hg Hinc Hr. unfold resampled_row.
  rewrite (on_grid_window df m inc_amt i r Hg Hinc Hr).
  destruct (Hg i r Hr) as [_ Hlen].
  apply Forall2_nth_error_intro; [now rewrite frame_mean_length|].
  intros c a b Ha Hb. apply frame_mean_nth in Ha. destruct Ha as [_ ->].
  unfold column. cbn [map snd].
  assert (E : nth c (snd r) None = b) by exact (nth_error_nth _ _ _ Hb).
  clear Hb. subst b.
  apply mean_singleton.
Qed.

(** The range of keys of a table on the grid whose last key is the
    integer [M]. *)
Lemma on_grid_range (df : DataFrame) (m M : Z) (inc_amt : Q) (n : nat) :
  on_grid df m inc_amt -> 0 < inc_amt ->
  length (rows df) = S n ->
  grid_point m inc_amt n == inject_Z M ->
  exists lo hi,
    index_min df = Some lo /\ index_max df = Some hi
    /\ py_int lo = m /\ py_int hi = M.
Proof.
  intros Hg Hinc Hlen HM.
  assert (Hkey : forall k, In (Some k) (keys df) ->
                 exists i, (i <= n)%nat /\ k == grid_point m inc_amt i).
  { intros k Hk. unfold keys in Hk. apply in_map_iff in Hk.
    destruct Hk as (r & Hfst & Hin).
    apply In_nth_error in Hin. destruct Hin as [i Hi].
    assert (i < length (rows df))%nat by (apply nth_error_Some; congruence).
    destruct (Hg i r Hi) as [(k' & Hk' & Ek) _].
    exists i. split; [lia|]. congruence. }
  assert (Hat : forall i, (i <= n)%nat ->
                exists k, In (Some k) (keys df) /\ k == grid_point m inc_amt i).
  { intros i Hi.
    destruct (nth_error (rows df) i) as [r|] eqn:Er.
    - destruct (Hg i r Er) as [(k & Hk & Ek) _]. exists k. split; [|exact Ek].
      unfold keys. apply in_map_iff. exists r. split; [exact Hk|].
      eapply nth_error_In, Er.
    - apply nth_error_None in Er. lia. }
  destruct (Hat O ltac:(lia)) as (k0 & Hin0 & E0).
  destruct (Hat n ltac:(lia)) as (kn & Hinn & En).
  destruct (index_min_defined df k0 Hin0) as (lo & hi & Hlo & Hhi).
  exists lo, hi. split; [exact Hlo|]. split; [exact Hhi|].
  destruct (Hkey lo (index_min_In df lo Hlo)) as (i & Hi & Ei).
  destruct (Hkey hi (index_max_In df hi Hhi)) as (j & Hj & Ej).
  assert (H1 := index_min_lower df lo k0 Hlo Hin0).
  assert (H2 := index_max_upper df hi kn Hhi Hinn).
  assert (H3 := grid_point_le m inc_amt 0 i ltac:(lra) ltac:(lia)).
  assert (H4 := grid_point_le m inc_amt j n ltac:(lra) Hj).
  assert (H0 := grid_point_0 m inc_amt).
  split.
  - rewrite <- (py_int_inject_Z m). apply py_int_comp. lra.
  - rewrite <- (py_int_inject_Z M). apply py_int_comp. lra.
Qed.

(** C6, as the specification states it, fails in two ways: rows of the
    table that hold no value count as empty windows, and seven of them in a
    row make [resample] drop rows; and when the increment is not an integer
    the grid stops at [int(max(key))], before the last records. *)
Lemma on_grid_counterexample :
  (exists t,
      resample 20 sparse_table "depth" 1 = Ok t
      /\ on_grid sparse_table 0 1
      /\ length (rows sparse_table) = 8%nat /\ length (rows t) = 6%nat)
  /\ (exists t,
         resample 20 half_step_table "depth" (1 # 2) = Ok t
         /\ on_grid half_step_table 0 (1 # 2)
         /\ length (rows half_step_table) = 2%nat /\ length (rows t) = 1%nat).
Proof.
  split; eexists; (split; [vm_compute; reflexivity|]);
    (split; [|split; reflexivity]).
  - intros i r Hr.
    do 8 (destruct i as [|i]; [injection Hr as <-; split;
                               [eexists; split; [reflexivity|reflexivity]
                               |reflexivity]|]).
    now destruct i.
  - intros i r Hr.
    do 2 (destruct i as [|i]; [injection Hr as <-; split;
                               [eexists; split; [reflexivity|reflexivity]
                               |reflexivity]|]).
    now destruct i.
Qed.

(** C6 (amended).  For a table that lies on the grid of a positive
    increment from an integer smallest key to an integer largest key, one
    record per grid point in ascending order, [resample] returns a table
    and, when it finds no cutoff, this table has the rows of the input, in
    reverse order, with the same values. *)
Theorem resample_on_grid (fuel : nat) (df : DataFrame) (by_ : string)
    (inc_amt : Q) (m M : Z) (n : nat) :
  on_grid df m inc_amt -> 0 < inc_amt ->
  length (rows df) = S n ->
  grid_point m inc_amt n == inject_Z M ->
  (S n < fuel)%nat ->
  exists t end_,
    resample_trace fuel df by_ inc_amt
    = Ok (t, (map (grid_point m inc_amt) (seq 0 (S n)), end_))
    /\ (end_ = None -> Forall2 row_eq (rows t) (rev (rows df))).
Proof.
  intros Hg Hinc Hlen HM Hfuel.
  destruct (on_grid_range df m M inc_amt n Hg Hinc Hlen HM)
    as (lo & hi & Hlo & Hhi & Hm & HM').
  assert (Hsize : grid_size m M inc_amt = S n)
    by now apply grid_size_exact.
  assert (Hr : resample_range fuel df inc_amt
               = Ok (map (grid_point m inc_amt) (seq 0 (S n)))).
  { rewrite (resample_range_total df inc_amt lo hi fuel Hlo Hhi Hinc);
      rewrite Hm, HM', Hsize; [reflexivity|assumption]. }
  set (grid := map (grid_point m inc_amt) (seq 0 (S n))) in *.
  assert (Hgrid : forall i g, nth_error grid i = Some g ->
                              g = grid_point m inc_amt i)
    by (intros i g Hi; now apply nth_error_map_seq in Hi).
  assert (Hglen : length grid = length (rows df))
    by (unfold grid; now rewrite List.length_map, List.length_seq).
  clearbody grid.
  rewrite (resample_trace_unfold _ _ _ _ _ Hr). cbv zeta.
  destruct (loc_upto_total df inc_amt grid) as [rs Hrs].
  rewrite Hrs. eexists. eexists. split; [reflexivity|].
  intros Hend. rewrite Hend in Hrs. cbn [loc_upto] in Hrs.
  injection Hrs as <-. cbn [rows].
  unfold full_table. rewrite combine_map_same.
  apply Forall2_rev_rev.
  apply Forall2_nth_error_intro; [now rewrite List.length_map|].
  intros i a b Ha Hb.
  rewrite nth_error_map in Ha.
  destruct (nth_error grid i) as [g|] eqn:Eg; [|discriminate].
  apply Hgrid in Eg. subst g.
  injection Ha as <-.
  destruct (Hg i b Hb) as [(k & Hk & Ek) _].
  split.
  - cbn [fst]. rewrite Hk. cbn. now symmetry.
  - cbn [snd]. now apply (on_grid_row df m inc_amt).
Qed.

Lemma resample_on_grid_witness :
  exists t end_,
    resample_trace 20 scenario_table "depth" 1
    = Ok (t, (map (grid_point 0 1) (seq 0 11), end_))
    /\ (end_ = None -> Forall2 row_eq (rows t) (rev (rows scenario_table))).
Proof.
  apply (resample_on_grid 20 scenario_table "depth" 1 0 10 10).
  - intros i r Hr.
    do 11 (destruct i as [|i]; [injection Hr as <-; split;
                                [eexists; split; [reflexivity|reflexivity]
                                |reflexivity]|]).
    now destruct i.
  - reflexivity.
  - reflexivity.
  - reflexivity.
  - lia.
Defined.

(** * Further properties *)

(** ** More on [check_resample] *)

Lemma lookup_nth_error {A} (l : list A) (i : nat) : l !! i = nth_error l i.
Proof. revert i. induction l as [|a l IH]; intros [|i]; cbn; auto. Qed.

Lemma count_steps_le (inc_amt : Q) (r : list Q) (i : nat) :
  (count_steps inc_amt r i <= i)%nat.
Proof.
  unfold count_steps, step_positions.
  eapply Nat.le_trans; [apply filter_length_le|].
  rewrite List.length_seq. lia.
Qed.

(** X1.  A cutoff that [check_resample] returns is one of the grid points
    it was given, the grid point one increment above it is in the list too,
    and the list has at least seven entries. *)
Theorem check_resample_cutoff_in_list (l : loc) (inc_amt : Q) (xs : list Q)
    (h h' : gmap loc (list Q)) (g : Q) :
  h !! l = Some xs ->
  check_resample l inc_amt h = Some (Some g, h') ->
  In g xs
  /\ (exists b, In b xs /\ g + inc_amt == b)
  /\ (7 <= length xs)%nat.
Proof.
  intros Hl H. rewrite (check_resample_spec l inc_amt xs h Hl) in H.
  injection H as Hg _.
  split; [apply in_rev; now apply (stop_point_of_In inc_amt)|].
  apply stop_point_of_Some in Hg.
  destruct Hg as (i & Hi & Hgi & Hs & Hc).
  rewrite length_rev in Hi. split.
  - apply is_step_true in Hs. destruct Hs as (a & b & Ha & Hb & E).
    exists b. split; [|congruence].
    apply in_rev, list_elem_of_In, list_elem_of_lookup. eauto.
  - assert (H5 := count_steps_le inc_amt (rev xs) i). lia.
Qed.

Lemma check_resample_cutoff_in_list_witness :
  In 1 run7 /\ (exists b, In b run7 /\ 1 + 1 == b) /\ (7 <= length run7)%nat.
Proof.
  apply (check_resample_cutoff_in_list 1%positive 1 run7
           {[ 1%positive := run7 ]}
           (<[1%positive := rev run7]> {[ 1%positive := run7 ]}) 1).
  - apply lookup_singleton_eq.
  - vm_compute. reflexivity.
Defined.

(** X2.  Two calls of [check_resample] on the same list object leave the
    heap as it was before the first: the second reversal undoes the first,
    and the second call scans the list in its original order. *)
Theorem check_resample_twice_restores (l : loc) (inc1 inc2 : Q) (xs : list Q)
    (h : gmap loc (list Q)) :
  h !! l = Some xs ->
  exists r1 h1,
    check_resample l inc1 h = Some (r1, h1)
    /\ check_resample l inc2 h1 = Some (stop_point_of inc2 xs, h).
Proof.
  intros Hl. exists (stop_point_of inc1 (rev xs)), (<[l := rev xs]> h).
  split; [now apply check_resample_spec|].
  rewrite (check_resample_spec l inc2 (rev xs)) by apply lookup_insert_eq.
  rewrite rev_involutive, insert_insert_eq, insert_id by assumption.
  reflexivity.
Qed.

Lemma check_resample_twice_restores_witness :
  exists r1 h1,
    check_resample 1%positive 1 {[ 1%positive := run7 ]} = Some (r1, h1)
    /\ check_resample 1%positive 1 h1
       = Some (stop_point_of 1 run7, {[ 1%positive := run7 ]}).
Proof.
  apply (check_resample_twice_restores 1%positive 1 1 run7
           {[ 1%positive := run7 ]}).
  apply lookup_singleton_eq.
Defined.

(** The entries of a reversed run of consecutive grid points. *)
Lemma run_rev_lookup (top : Z) (inc_amt : Q) (j n i : nat) :
  (i < n)%nat ->
  rev (map (grid_point top inc_amt) (seq j n)) !! i
  = Some (grid_point top inc_amt (j + (n - S i))).
Proof.
  intros Hi. rewrite lookup_nth_error, nth_error_rev.
  rewrite List.length_map, List.length_seq.
  destruct (Nat.ltb_spec i n) as [_|?]; [|lia].
  rewrite nth_error_map, nth_error_seq.
  destruct (Nat.ltb_spec (n - S i) n) as [_|?]; [|lia]. reflexivity.
Qed.

Lemma run_is_step (top : Z) (inc_amt : Q) (j n i : nat) :
  (1 <= i < n)%nat ->
  is_step inc_amt (rev (map (grid_point top inc_amt) (seq j n))) i = true.
Proof.
  intros Hi. unfold is_step.
  rewrite (run_rev_lookup top inc_amt j n i) by lia.
  rewrite (run_rev_lookup top inc_amt j n (i - 1)) by lia.
  apply Qeq_bool_iff.
  replace (j + (n - S (i - 1)))%nat with (S (j + (n - S i))) by lia.
  now rewrite grid_point_S.
Qed.

Lemma run_stop_point (top : Z) (inc_amt : Q) (j n : nat) :
  (7 <= n)%nat ->
  stop_point_of inc_amt (rev (map (grid_point top inc_amt) (seq j n)))
  = Some (grid_point top inc_amt (j + n - 6)).
Proof.
  intros Hn. unfold stop_point_of, fifth_step, step_positions, loop_indices.
  rewrite length_rev, List.length_map, List.length_seq.
  rewrite filter_true.
  - change (4 - 0)%nat with 4%nat. rewrite nth_error_seq.
    destruct (Nat.ltb_spec 4 (n - 1 - 1)) as [_|?]; [|lia].
    cbn [Nat.add]. rewrite run_rev_lookup by lia.
    do 2 f_equal. lia.
  - intros i Hi. apply in_seq in Hi. apply run_is_step. lia.
Qed.



(** The run 7, 9, ..., 23 at increment 2 gives the cutoff 13. *)
Example check_resample_run_13 :
  stop_point_of 2 (rev [7; 9; 11; 13; 15; 17; 19; 21; 23]) = Some 13.
Proof. reflexivity. Qed.

(** ** More on [set_index] *)

Lemma index_name_is_true (df : DataFrame) (by_ : string) :
  index_name_is df by_ = true <-> index_name df = Some by_.
Proof.
  unfold index_name_is. destruct (index_name df) as [n|].
  - rewrite String.eqb_eq. split; congruence.
  - split; discriminate.
Qed.

Lemma pd_set_index_name (df df' : DataFrame) (by_ : string) :
  pd_set_index df by_ = Some df' -> index_name df' = Some by_.
Proof.
  unfold pd_set_index. destruct (col_pos by_ (columns df)); [|discriminate].
  now intros [= <-].
Qed.

(** X4.  [set_index] is idempotent: indexing its own result by the same
    column returns that result, and prints what the first call printed. *)
Theorem set_index_idempotent (df : DataFrame) (by_ : string) :
  set_index (fst (set_index df by_)) by_ = set_index df by_.
Proof.
  unfold set_index at 2 3.
  destruct (index_name_is df by_) eqn:En; cbn [negb fst].
  - unfold set_index. now rewrite En.
  - destruct (pd_set_index df by_) as [df'|] eqn:Ep; cbn [fst].
    + unfold set_index.
      rewrite (proj2 (index_name_is_true df' by_) (pd_set_index_name _ _ _ Ep)).
      reflexivity.
    + unfold set_index. now rewrite En, Ep.
Qed.

(** X5.  After [set_index] the table is either indexed by the column asked
    for, with nothing printed, or it is the table passed in, the column is
    not one of its columns, and the complaint has been printed once. *)
Theorem set_index_outcome (df : DataFrame) (by_ : string) :
  (index_name (fst (set_index df by_)) = Some by_
   /\ snd (set_index df by_) = [])
  \/ (fst (set_index df by_) = df
      /\ col_pos by_ (columns df) = None
      /\ index_name df <> Some by_
      /\ snd (set_index df by_) = [not_found_message by_]).
Proof.
  unfold set_index. destruct (index_name_is df by_) eqn:En; cbn [negb].
  - left. split; [now apply index_name_is_true|reflexivity].
  - destruct (pd_set_index df by_) as [df'|] eqn:Ep; cbn [fst snd].
    + left. split; [eapply pd_set_index_name, Ep|reflexivity].
    + right. split; [reflexivity|]. split; [|split; [|reflexivity]].
      * unfold pd_set_index in Ep.
        now destruct (col_pos by_ (columns df)).
      * intros H. apply index_name_is_true in H. congruence.
Qed.

Lemma col_pos_lt (by_ : string) (cols : list string) (j : nat) :
  col_pos by_ cols = Some j -> (j < length cols)%nat /\ nth_error cols j = Some by_.
Proof.
  revert j. induction cols as [|c cols IH]; intros j H; [discriminate|].
  cbn in H. destruct (String.eqb_spec c by_) as [->|Hne].
  - injection H as <-. cbn. split; [lia|reflexivity].
  - destruct (col_pos by_ cols) as [j'|]; [|discriminate].
    injection H as <-. destruct (IH j' eq_refl). cbn. split; [lia|assumption].
Qed.

Lemma col_pos_In (by_ : string) (cols : list string) :
  In by_ cols -> col_pos by_ cols <> None.
Proof.
  induction cols as [|c cols IH]; intros H; [destruct H|].
  cbn. destruct (String.eqb_spec c by_) as [->|Hne]; [discriminate|].
  destruct H as [->|H]; [congruence|].
  destruct (col_pos by_ cols); [discriminate|now apply IH].
Qed.

Lemma remove_nth_length {A} (j : nat) (l : list A) :
  (j < length l)%nat -> length (remove_nth j l) = (length l - 1)%nat.
Proof.
  intros Hj. unfold remove_nth.
  rewrite List.length_app, length_firstn, length_skipn. lia.
Qed.

(** X6.  [set_index] keeps the number of records, and keeps the table
    well formed: when every row has one cell per column before the call,
    so it has after it. *)
Theorem set_index_well_formed (df : DataFrame) (by_ : string) :
  well_formed df ->
  length (rows (fst (set_index df by_))) = length (rows df)
  /\ well_formed (fst (set_index df by_)).
Proof.
  intros Hwf. unfold set_index.
  destruct (index_name_is df by_); cbn [negb fst]; [now split|].
  unfold pd_set_index.
  destruct (col_pos by_ (columns df)) as [j|] eqn:Ej; cbn [fst]; [|now split].
  apply col_pos_lt in Ej. destruct Ej as [Hj _]. cbn [rows columns].
  split; [apply List.length_map|].
  intros r' Hr'. cbn [rows columns] in *.
  apply in_map_iff in Hr'. destruct Hr' as (r & <- & Hr). cbn [snd].
  assert (E3 := Hwf r Hr). unfold value in *.
  unfold remove_nth.
  rewrite !List.length_app, !length_firstn, !length_skipn. lia.
Qed.

Lemma scenario_raw_well_formed : well_formed scenario_raw.
Proof.
  intros r Hr. cbn in Hr.
  repeat (destruct Hr as [<-|Hr]; [reflexivity|]). destruct Hr.
Qed.

Lemma set_index_well_formed_witness :
  length (rows (fst (set_index scenario_raw "depth")))
  = length (rows scenario_raw)
  /\ well_formed (fst (set_index scenario_raw "depth")).
Proof.
  apply (set_index_well_formed scenario_raw "depth").
  exact scenario_raw_well_formed.
Defined.

(** ** The front end *)

Lemma matching_columns_In (ps : list string) (data : DataFrame) (b : string) :
  In b (matching_columns ps data) ->
  In b (columns data)
  /\ (startswith_any ps b = true \/ endswith_any ps b = true).
Proof.
  unfold matching_columns. rewrite filter_In, orb_true_iff. tauto.
Qed.

Lemma find_by_columns_In (data : DataFrame) (by_ : string) (sel : selection)
    (msgs : list string) (b : string) :
  find_by_columns data by_ = (Found sel, msgs) ->
  In b (selected_columns sel) -> In b (columns data).
Proof.
  unfold find_by_columns.
  destruct (startswith_any _ by_);
    [|destruct (startswith_any _ by_);
      [|destruct (startswith_any _ by_); [|discriminate]]];
    intros [= <- _]; cbn [selected_columns]; intros Hb;
    try (now apply matching_columns_In in Hb).
  apply in_app_or in Hb. destruct Hb as [Hb|Hb];
    now apply matching_columns_In in Hb.
Qed.

(** X7.  Every column [find_by_columns] selects is a column of the table,
    so [set_index] finds it: indexing by it prints nothing and returns a
    table indexed by that column. *)
Theorem find_by_columns_found_by_set_index (data : DataFrame) (by_ : string)
    (sel : selection) (msgs : list string) (b : string) :
  find_by_columns data by_ = (Found sel, msgs) ->
  In b (selected_columns sel) ->
  In b (columns data)
  /\ snd (set_index data b) = []
  /\ index_name (fst (set_index data b)) = Some b.
Proof.
  intros Hf Hb.
  assert (Hcol := find_by_columns_In data by_ sel msgs b Hf Hb).
  split; [exact Hcol|].
  apply col_pos_In in Hcol.
  unfold set_index. destruct (index_name_is data b) eqn:En; cbn [negb].
  - split; [reflexivity|now apply index_name_is_true].
  - unfold pd_set_index.
    destruct (col_pos b (columns data)); [|congruence].
    split; reflexivity.
Qed.

Lemma find_by_columns_found_by_set_index_witness :
  In "depth"%string (columns scenario_raw)
  /\ snd (set_index scenario_raw "depth") = []
  /\ index_name (fst (set_index scenario_raw "depth")) = Some "depth"%string.
Proof.
  apply (find_by_columns_found_by_set_index scenario_raw "Both"
           (Both ["depth"%string] [] "Depth" "Year") [] "depth").
  - reflexivity.
  - left. reflexivity.
Defined.

(** X8.  A mode that starts with ["DEPTH"], which the header of the
    program lists among the ways to ask for depth, is not recognised:
    [find_by_columns] prints its complaint and ends in the
    [UnboundLocalError] of [name], whatever the table. *)
Theorem find_by_columns_upper_depth (data : DataFrame) (rest : string) :
  find_by_columns data ("DEPTH" ++ rest)
  = (UnboundLocal "name", [by_not_found_message]).
Proof. reflexivity. Qed.

(** ** Batches *)

Lemma log_app_empty_r (log : batch_log) :
  log_app log {| printed := []; written := [] |} = log.
Proof. destruct log. unfold log_app. cbn. now rewrite !app_nil_r. Qed.

Lemma log_app_assoc (l1 l2 l3 : batch_log) :
  log_app (log_app l1 l2) l3 = log_app l1 (log_app l2 l3).
Proof. unfold log_app. cbn. now rewrite !app_assoc. Qed.

Lemma resample_request_log (out : writer) (fuel : nat) (df : DataFrame)
    (name b : string) (i : Q) (log : batch_log) :
  resample_request out fuel df name b i log
  = prepend_log log
      (resample_request out fuel df name b i
         {| printed := []; written := [] |}).
Proof.
  unfold resample_request. destruct (set_index df b) as [raw msgs].
  destruct (resample fuel raw b i) as [t| |]; try reflexivity.
  destruct (out name b i t raw); reflexivity.
Qed.

Lemma set_resample_incs_log (out : writer) (fuel : nat) (df : DataFrame)
    (name b : string) :
  forall (incs : list Q) (log : batch_log),
    set_resample_incs out fuel df name b incs log
    = prepend_log log
        (set_resample_incs out fuel df name b incs
           {| printed := []; written := [] |}).
Proof.
  induction incs as [|i incs IH]; intros log; cbn [set_resample_incs].
  - cbn. now rewrite log_app_empty_r.
  - rewrite (resample_request_log out fuel df name b i log).
    destruct (resample_request out fuel df name b i _) as [l| |];
      cbn [prepend_log]; try reflexivity.
    rewrite (IH (log_app log l)), (IH l).
    destruct (set_resample_incs out fuel df name b incs _) as [l'| |]; cbn;
      try reflexivity.
    now rewrite log_app_assoc.
Qed.

Lemma set_resample_from_log (out : writer) (fuel : nat) (df : DataFrame)
    (name : string) (incs : list Q) :
  forall (bys : list string) (log : batch_log),
    set_resample_from out fuel df name bys incs log
    = prepend_log log
        (set_resample_from out fuel df name bys incs
           {| printed := []; written := [] |}).
Proof.
  induction bys as [|b bys IH]; intros log; cbn [set_resample_from].
  - cbn. now rewrite log_app_empty_r.
  - rewrite (set_resample_incs_log out fuel df name b incs log).
    destruct (set_resample_incs out fuel df name b incs _) as [l| |];
      cbn [prepend_log]; try reflexivity.
    rewrite (IH (log_app log l)), (IH l).
    destruct (set_resample_from out fuel df name bys incs _) as [l'| |]; cbn;
      try reflexivity.
    now rewrite log_app_assoc.
Qed.

(** X9.  In the mode "all" [user_input] does what it does for the depth
    columns alone and then what it does for the year columns alone: the two
    logs follow one another, and a batch that fails or does not return
    stops the whole. *)
Theorem user_input_both (out : writer) (fuel : nat) (raw : DataFrame)
    (by1 by2 : list string) (name1 name2 : string) (inc_amt : list Q) :
  user_input out fuel raw (Both by1 by2 name1 name2) inc_amt
  = match user_input out fuel raw (Single by1 name1) inc_amt with
    | Ok log1 =>
        match user_input out fuel raw (Single by2 name2) inc_amt with
        | Ok log2 => Ok (log_app log1 log2)
        | Raise e => Raise e
        | Timeout => Timeout
        end
    | Raise e => Raise e
    | Timeout => Timeout
    end.
Proof.
  cbn [user_input]. unfold set_resample.
  destruct (set_resample_from out fuel raw name1 by1 inc_amt _) as [log1| |];
    try reflexivity.
  rewrite (set_resample_from_log out fuel raw name2 inc_amt by2 log1).
  now destruct (set_resample_from out fuel raw name2 by2 inc_amt _).
Qed.

(** The requests of one column, when all return. *)
Lemma set_resample_incs_written (out : writer) (fuel : nat) (df : DataFrame)
    (name b : string) :
  forall (incs : list Q),
    (forall i, In i incs ->
               exists t u,
                 resample fuel (fst (set_index df b)) b i = Ok t
                 /\ out name b i t (fst (set_index df b)) = Ok u) ->
    exists log,
      set_resample_incs out fuel df name b incs
        {| printed := []; written := [] |}
      = Ok log
      /\ map fst (written log) = map (fun i => (b, i)) incs
      /\ (forall b' i t, In (b', i, t) (written log) ->
                         resample fuel (fst (set_index df b')) b' i = Ok t).
Proof.
  induction incs as [|i incs IH]; intros Hall.
  - eexists. split; [reflexivity|]. split; [reflexivity|]. intros ? ? ? [].
  - destruct (Hall i (or_introl eq_refl)) as (t & u & Ht & Hu).
    destruct IH as (log & Hlog & Hw & Ht'); [intros j Hj; apply Hall; now right|].
    cbn [set_resample_incs]. unfold resample_request.
    destruct (set_index df b) as [raw msgs] eqn:Es. cbn [fst] in *.
    rewrite Ht, Hu, set_resample_incs_log, Hlog. cbn [prepend_log].
    eexists. split; [reflexivity|]. cbn [log_app written app map fst].
    split; [now rewrite Hw|].
    intros b' i' t' [[= <- <- <-]|Hin]; [now rewrite Es|now apply Ht'].
Qed.

(** X10.  When in every request of a batch [resample] and the writer
    return, [set_resample] writes exactly one table per column and
    increment, column by column and, within a column, in the order of the
    increments; each is the result of [resample] on the table indexed by
    that column. *)
Theorem set_resample_all_written (out : writer) (fuel : nat) (df : DataFrame)
    (name : string) (bys : list string) (incs : list Q) :
  (forall b i, In b bys -> In i incs ->
               exists t u,
                 resample fuel (fst (set_index df b)) b i = Ok t
                 /\ out name b i t (fst (set_index df b)) = Ok u) ->
  exists log,
    set_resample out fuel df bys incs name = Ok log
    /\ map fst (written log) = list_prod bys incs
    /\ (forall b i t, In (b, i, t) (written log) ->
                      resample fuel (fst (set_index df b)) b i = Ok t).
Proof.
  unfold set_resample. induction bys as [|b bys IH]; intros Hall.
  - eexists. split; [reflexivity|]. split; [reflexivity|]. intros ? ? ? [].
  - destruct (set_resample_incs_written out fuel df name b incs)
      as (l1 & H1 & Hw1 & Ht1);
      [intros i Hi; apply Hall; [now left|assumption]|].
    destruct IH as (l2 & H2 & Hw2 & Ht2);
      [intros b' i Hb' Hi; apply Hall; [now right|assumption]|].
    cbn [set_resample_from]. rewrite H1, set_resample_from_log, H2.
    cbn [prepend_log]. eexists. split; [reflexivity|].
    cbn [log_app written list_prod]. rewrite map_app, Hw1, Hw2.
    split; [reflexivity|].
    intros b' i t Hin. apply in_app_or in Hin.
    destruct Hin; [now apply Ht1|now apply Ht2].
Qed.

Lemma set_resample_all_written_witness :
  exists log,
    set_resample (fun _ _ _ _ _ => Ok tt) 20 scenario_raw ["depth"%string]
      [1; 2] "Depth" = Ok log
    /\ map fst (written log) = list_prod ["depth"%string] [1; 2]
    /\ (forall b i t, In (b, i, t) (written log) ->
                      resample 20 (fst (set_index scenario_raw b)) b i = Ok t).
Proof.
  apply (set_resample_all_written (fun _ _ _ _ _ => Ok tt) 20 scenario_raw
           "Depth" ["depth"%string] [1; 2]).
  intros b i [<-|[]] [<-|[<-|[]]]; eexists; exists tt;
    (split; [vm_compute; reflexivity|reflexivity]).
Defined.

Lemma set_resample_incs_raise (out : writer) (fuel : nat) (df : DataFrame)
    (name b : string) (e : exn) (i : Q) (after : list Q) :
  forall (before : list Q) (log : batch_log),
    (forall i', In i' before ->
                exists t u,
                  resample fuel (fst (set_index df b)) b i' = Ok t
                  /\ out name b i' t (fst (set_index df b)) = Ok u) ->
    (resample fuel (fst (set_index df b)) b i = Raise e
     \/ exists t, resample fuel (fst (set_index df b)) b i = Ok t
                  /\ out name b i t (fst (set_index df b)) = Raise e) ->
    set_resample_incs out fuel df name b (before ++ i :: after) log = Raise e.
Proof.
  induction before as [|i0 before IH]; intros log Hall Hi;
    cbn [app set_resample_incs]; unfold resample_request;
    destruct (set_index df b) as [raw msgs] eqn:Es; cbn [fst] in *.
  - destruct Hi as [->|(t & -> & ->)]; reflexivity.
  - destruct (Hall i0 (or_introl eq_refl)) as (t & u & -> & ->).
    apply IH; [|assumption]. intros i' Hi'. apply Hall. now right.
Qed.

(** X11.  [set_resample] has no handler: when, all requests before it
    having been written, [resample] or the writer raises for one column and
    increment, the whole batch ends in that exception and no later request
    is run. *)
Theorem set_resample_aborts (out : writer) (fuel : nat) (df : DataFrame)
    (name : string) (e : exn) (b : string) (i : Q)
    (bys_before bys_after : list string) (incs_before incs_after : list Q) :
  (forall b' i', In b' bys_before -> In i' (incs_before ++ i :: incs_after) ->
                 exists t u,
                   resample fuel (fst (set_index df b')) b' i' = Ok t
                   /\ out name b' i' t (fst (set_index df b')) = Ok u) ->
  (forall i', In i' incs_before ->
              exists t u,
                resample fuel (fst (set_index df b)) b i' = Ok t
                /\ out name b i' t (fst (set_index df b)) = Ok u) ->
  (resample fuel (fst (set_index df b)) b i = Raise e
   \/ exists t, resample fuel (fst (set_index df b)) b i = Ok t
                /\ out name b i t (fst (set_index df b)) = Raise e) ->
  set_resample out fuel df (bys_before ++ b :: bys_after)
               (incs_before ++ i :: incs_after) name
  = Raise e.
Proof.
  intros Hbys Hincs Hi. unfold set_resample.
  generalize {| printed := []; written := [] |}.
  induction bys_before as [|b0 bys_before IH]; intros log;
    cbn [app set_resample_from].
  - now rewrite (set_resample_incs_raise out fuel df name b e i incs_after
                   incs_before).
  - destruct (set_resample_incs_written out fuel df name b0
                (incs_before ++ i :: incs_after))
      as (l & Hl & _); [intros i' Hi'; apply Hbys; [now left|assumption]|].
    rewrite set_resample_incs_log, Hl. cbn [prepend_log].
    apply IH. intros b' i' Hb' Hi'. apply Hbys; [now right|assumption].
Qed.

Lemma set_resample_aborts_witness :
  set_resample (fun _ _ _ _ _ => Raise (OtherError "output")) 20 undated_raw
               ([] ++ "age"%string :: ["depth"%string; "x"%string])
               ([] ++ 1 :: [2; 3]) "Year"
  = Raise ValueError.
Proof.
  apply (set_resample_aborts (fun _ _ _ _ _ => Raise (OtherError "output")) 20
           undated_raw "Year" ValueError "age" 1
           [] ["depth"%string; "x"%string] [] [2; 3]).
  - intros b' i' [].
  - intros i' [].
  - left. vm_compute. reflexivity.
Defined.

(** ** More on [resample] *)

(** X12.  A table that has no key, because it has no record or because
    the key of every record is missing, makes [resample] raise the
    [ValueError] of [int(nan)], for every increment; the grid generator is
    not reached, whatever it is. *)
Theorem resample_no_key_raises (gen : Z -> Z -> Q -> outcome (list Q))
    (fuel : nat) (df : DataFrame) (by_ : string) (inc_amt : Q) :
  (forall k, In k (keys df) -> k = None) ->
  resample_with gen df by_ inc_amt = Raise ValueError
  /\ resample fuel df by_ inc_amt = Raise ValueError.
Proof.
  intros Hk. apply present_nil_iff in Hk.
  unfold resample. rewrite resample_trace_with.
  unfold resample_with, index_min. now rewrite Hk.
Qed.

Lemma resample_no_key_raises_witness :
  resample_with (fun _ _ _ => Ok [0]) (fst (set_index undated_raw "age"))
    "age" 1 = Raise ValueError
  /\ resample 20 (fst (set_index undated_raw "age")) "age" 1
     = Raise ValueError.
Proof.
  apply (resample_no_key_raises (fun _ _ _ => Ok [0]) 20
           (fst (set_index undated_raw "age")) "age" 1).
  intros k [<-|[<-|[<-|[]]]]; reflexivity.
Defined.

(** ** Records without a key *)

Lemma present_keys_drop (rs : list (value * list value)) :
  present (map fst (List.filter (fun r => negb (isnull (fst r))) rs))
  = present (map fst rs).
Proof.
  induction rs as [|[[k|] cells] rs IH]; cbn; [reflexivity| |assumption].
  now rewrite IH.
Qed.

Lemma window_drop (df : DataFrame) (g inc : Q) :
  window (drop_missing_keys df) g inc = window df g inc.
Proof.
  unfold window, drop_missing_keys. cbn [rows].
  induction (rows df) as [|[[k|] cells] rs IH]; cbn; [reflexivity| |assumption].
  now rewrite IH.
Qed.

Lemma resampled_row_drop (df : DataFrame) (inc_amt g : Q) :
  resampled_row (drop_missing_keys df) inc_amt g = resampled_row df inc_amt g.
Proof. unfold resampled_row. now rewrite window_drop. Qed.

Lemma resample_range_drop (fuel : nat) (df : DataFrame) (inc_amt : Q) :
  resample_range fuel (drop_missing_keys df) inc_amt
  = resample_range fuel df inc_amt.
Proof.
  unfold resample_range, index_min, index_max, keys, drop_missing_keys.
  cbn [rows]. now rewrite present_keys_drop.
Qed.

(** X13.  Records whose key is missing play no part: [resample] returns
    for a table what it returns for the table without those records. *)
Theorem resample_ignores_missing_keys (fuel : nat) (df : DataFrame)
    (by_ : string) (inc_amt : Q) :
  resample fuel (drop_missing_keys df) by_ inc_amt
  = resample fuel df by_ inc_amt.
Proof.
  unfold resample. f_equal.
  destruct (resample_range fuel df inc_amt) as [grid| |] eqn:Er.
  - rewrite (resample_trace_unfold fuel df by_ inc_amt grid Er).
    rewrite (resample_trace_unfold fuel (drop_missing_keys df) by_ inc_amt grid)
      by now rewrite resample_range_drop.
    unfold empty_window_grid_points, full_table.
    rewrite (map_ext _ _ (resampled_row_drop df inc_amt)).
    rewrite (filter_ext _ (fun g => all_null (resampled_row df inc_amt g)))
      by (intros g; now rewrite resampled_row_drop).
    reflexivity.
  - unfold resample_trace. now rewrite resample_range_drop, Er.
  - unfold resample_trace. now rewrite resample_range_drop, Er.
Qed.

(** ** Values of the output rows *)

(** X14.  When the window of a grid point holds exactly one record, the
    output row of that grid point holds the values of that record. *)
Theorem single_record_row (df : DataFrame) (inc_amt g : Q)
    (r : value * list value) :
  window df g (inc_amt / 2) = [r] ->
  length (snd r) = length (columns df) ->
  Forall2 value_eq (resampled_row df inc_amt g) (snd r).
Proof.
  intros Hw Hlen. unfold resampled_row. rewrite Hw.
  apply Forall2_nth_error_intro; [now rewrite frame_mean_length|].
  intros c a b Ha Hb. apply frame_mean_nth in Ha. destruct Ha as [_ ->].
  unfold column. cbn [map snd].
  assert (E : nth c (snd r) None = b) by exact (nth_error_nth _ _ _ Hb).
  clear Hb. subst b. apply mean_singleton.
Qed.

Lemma single_record_row_witness :
  Forall2 value_eq (resampled_row scenario_table 1 3) [Some 4].
Proof.
  apply (single_record_row scenario_table 1 3 (Some 3, [Some 4]));
    reflexivity.
Defined.

(** ** The windows tile the axis *)

(** The grid of [resample], when there is one: the points
    [top + i * inc_amt] for [i < n], with [n] and the increment positive. *)
Lemma resample_range_grid (fuel : nat) (df : DataFrame) (inc_amt : Q)
    (grid : list Q) :
  resample_range fuel df inc_amt = Ok grid ->
  exists top n,
    grid = map (grid_point top inc_amt) (seq 0 n)
    /\ (0 < n)%nat /\ 0 < inc_amt.
Proof.
  intros Hr. apply resample_range_sound in Hr.
  destruct Hr as (lo & hi & Hlo & Hhi & Hf).
  assert (Hlh : lo <= hi) by (eapply index_min_le_max; eassumption).
  assert (Htb : (py_int lo <= py_int hi)%Z) by now apply py_int_mono.
  destruct (frange_from_sound _ _ _ _ _ _ Hf) as (Hg & Hle & Hgt).
  cbn [Nat.add] in Hgt.
  exists (py_int lo), (length grid). split; [exact Hg|].
  assert (Hn : (0 < length grid)%nat).
  { destruct (length grid); [|lia]. exfalso.
    rewrite grid_point_0, <- Zlt_Qlt in Hgt. lia. }
  split; [exact Hn|].
  destruct (Qlt_le_dec 0 inc_amt) as [?|Hneg]; [assumption|]. exfalso.
  assert (H0 := Hle O ltac:(lia)).
  assert (H1 := grid_point_antitone (py_int lo) inc_amt 0 (length grid)
                  Hneg ltac:(lia)).
  lra.
Qed.

Lemma step_index (inc_amt x : Q) :
  0 < inc_amt -> 0 <= x ->
  exists i : nat,
    inject_Z (Z.of_nat i) * inc_amt <= x
    /\ x < (inject_Z (Z.of_nat i) + 1) * inc_amt.
Proof.
  intros Hinc Hx.
  set (q := x / inc_amt).
  assert (Hq : q * inc_amt == x) by (unfold q; field; lra).
  assert (Hq0 : 0 <= q) by (destruct (Qlt_le_dec q 0); [nra|assumption]).
  assert (Hf0 : (0 <= Qfloor q)%Z)
    by (change 0%Z with (Qfloor 0); now apply Qfloor_resp_le).
  exists (Z.to_nat (Qfloor q)). rewrite Z2Nat.id by assumption.
  assert (H1 := Qfloor_le q). assert (H2 := Qlt_floor q).
  rewrite inject_Z_plus in H2. change (inject_Z 1) with 1 in H2.
  set (f := inject_Z (Qfloor q)) in *. split; nra.
Qed.

(** X16.  At a positive integer increment the windows of the grid points
    tile the axis: no record is selected by two grid points, and every
    record whose key lies between half an increment below the first grid
    point and half an increment above the last is selected by one. *)
Theorem windows_partition (fuel : nat) (df : DataFrame) (d : Z)
    (grid : list Q) (r : value * list value) (k : Q) :
  (0 < d)%Z ->
  resample_range fuel df (inject_Z d) = Ok grid ->
  In r (rows df) -> fst r = Some k ->
  (forall i j gi gj,
      nth_error grid i = Some gi -> nth_error grid j = Some gj ->
      In r (window df gi (inject_Z d / 2)) ->
      In r (window df gj (inject_Z d / 2)) -> i = j)
  /\ (forall g0 gn,
         hd_error grid = Some g0 ->
         nth_error grid (length grid - 1) = Some gn ->
         g0 - inject_Z d / 2 <= k -> k < gn + inject_Z d / 2 ->
         exists g, In g grid /\ In r (window df g (inject_Z d / 2))).
Proof.
  intros _ Hr Hin Hk. set (inc_amt := inject_Z d) in *.
  destruct (resample_range_grid fuel df inc_amt grid Hr)
    as (top & n & -> & Hn & Hinc).
  assert (Hhalf : inc_amt / 2 == inc_amt * (1 # 2)) by (field; lra).
  split.
  - intros i j gi gj Hi Hj Wi Wj.
    apply nth_error_map_seq in Hi, Hj.
    destruct Hi as [_ ->], Hj as [_ ->].
    apply window_In in Wi, Wj.
    destruct Wi as (_ & ki & Eki & Hi1 & Hi2), Wj as (_ & kj & Ekj & Hj1 & Hj2).
    assert (ki = k) by congruence. assert (kj = k) by congruence. subst ki kj.
    rewrite Hhalf in *.
    destruct (Nat.lt_trichotomy i j) as [Hlt|[?|Hgt]]; [|assumption|]; exfalso.
    + assert (H := grid_point_le top inc_amt (S i) j ltac:(lra) Hlt).
      rewrite grid_point_S in H. lra.
    + assert (H := grid_point_le top inc_amt (S j) i ltac:(lra) Hgt).
      rewrite grid_point_S in H. lra.
  - intros g0 gn H0 Hlast Hlo Hhi.
    rewrite List.length_map, List.length_seq in Hlast.
    apply nth_error_map_seq in Hlast. destruct Hlast as [_ ->].
    destruct n as [|n']; [lia|]. cbn in H0. injection H0 as <-.
    replace (S n' - 1)%nat with n' in Hhi by lia.
    rewrite Hhalf in Hlo, Hhi.
    destruct (step_index inc_amt (k - grid_point top inc_amt 0 + inc_amt * (1 # 2))
                Hinc ltac:(lra)) as (i & Hi1 & Hi2).
    assert (Hgi : grid_point top inc_amt i
                  == grid_point top inc_amt 0 + inject_Z (Z.of_nat i) * inc_amt)
      by (unfold grid_point; cbn [Z.of_nat]; change (inject_Z 0) with 0; ring).
    assert (Hgn : grid_point top inc_amt n'
                  == grid_point top inc_amt 0 + inject_Z (Z.of_nat n') * inc_amt)
      by (unfold grid_point; cbn [Z.of_nat]; change (inject_Z 0) with 0; ring).
    assert (Hin' : (i < S n')%nat).
    { destruct (Nat.lt_ge_cases i (S n')) as [?|Hge]; [assumption|]. exfalso.
      assert (Hle : inject_Z (Z.of_nat n') + 1 <= inject_Z (Z.of_nat i)).
      { change 1 with (inject_Z 1). rewrite <- inject_Z_plus, <- Zle_Qle. lia. }
      set (a := inject_Z (Z.of_nat i)) in *.
      set (b := inject_Z (Z.of_nat n')) in *. nra. }
    exists (grid_point top inc_amt i). split.
    + apply in_map_iff. exists i. split; [reflexivity|]. apply in_seq. lia.
    + apply window_In. split; [assumption|]. exists k.
      split; [assumption|]. rewrite Hhalf, Hgi. split; lra.
Qed.

Lemma windows_partition_witness :
  (forall i j gi gj,
      nth_error scenario_grid i = Some gi ->
      nth_error scenario_grid j = Some gj ->
      In (Some 3, [Some 4]) (window scenario_table gi (inject_Z 2 / 2)) ->
      In (Some 3, [Some 4]) (window scenario_table gj (inject_Z 2 / 2)) -> i = j)
  /\ (forall g0 gn,
         hd_error scenario_grid = Some g0 ->
         nth_error scenario_grid (length scenario_grid - 1) = Some gn ->
         g0 - inject_Z 2 / 2 <= 3 -> 3 < gn + inject_Z 2 / 2 ->
         exists g, In g scenario_grid
                   /\ In (Some 3, [Some 4]) (window scenario_table g (inject_Z 2 / 2))).
Proof.
  apply (windows_partition 20 scenario_table 2 scenario_grid
           (Some 3, [Some 4]) 3).
  - lia.
  - vm_compute. reflexivity.
  - cbn. tauto.
  - reflexivity.
Defined.

(** ** The table that is returned *)

Lemma resample_trace_inv (fuel : nat) (df : DataFrame) (by_ : string)
    (inc_amt : Q) (t : DataFrame) (grid : list Q) (end_ : option Q) :
  resample_trace fuel df by_ inc_amt = Ok (t, (grid, end_)) ->
  resample_range fuel df inc_amt = Ok grid
  /\ end_ = stop_point_of inc_amt
              (rev (empty_window_grid_points df inc_amt grid))
  /\ exists rs,
       loc_upto end_ (full_table df inc_amt grid) = Some rs
       /\ t = {| index_name := Some by_; columns := columns df; rows := rs |}.
Proof.
  intros Ht.
  destruct (resample_range fuel df inc_amt) as [g| |] eqn:Er.
  - rewrite (resample_trace_unfold _ _ _ _ _ Er) in Ht. cbv zeta in Ht.
    destruct (loc_upto _ (full_table df inc_amt g)) as [rs|] eqn:El;
      [|discriminate].
    injection Ht as <- <- <-. split; [reflexivity|]. split; [reflexivity|].
    exists rs. now split.
  - unfold resample_trace in Ht. rewrite Er in Ht. discriminate.
  - unfold resample_trace in Ht. rewrite Er in Ht. discriminate.
Qed.

(** X17.  When a cutoff [c] is found, the table [resample] returns holds
    exactly the grid points that are at least [c], from the largest down to
    [c] itself, each with its row. *)
Theorem resample_cutoff_rows (fuel : nat) (df : DataFrame) (by_ : string)
    (inc_amt : Q) (t : DataFrame) (grid : list Q) (c : Q) :
  resample_trace fuel df by_ inc_amt = Ok (t, (grid, Some c)) ->
  In c grid
  /\ rows t = map (fun g => (Some g, resampled_row df inc_amt g))
                  (List.filter (Qle_bool c) (rev grid)).
Proof.
  intros Ht. apply resample_trace_inv in Ht.
  destruct Ht as (Hr & Hend & rs & Hrs & ->). cbn [rows].
  assert (Hc : In c grid).
  { symmetry in Hend. apply stop_point_of_In, in_rev in Hend.
    unfold empty_window_grid_points in Hend. now apply filter_In in Hend. }
  split; [exact Hc|].
  cbn [loc_upto] in Hrs. rewrite full_table_map in Hrs.
  rewrite upto_label_descending in Hrs.
  - now injection Hrs as <-.
  - apply StronglySorted_rev. eapply resample_range_sorted, Hr.
  - now apply in_rev in Hc.
Qed.

Lemma resample_cutoff_rows_witness :
  In 2 (fst (snd sparse_result))
  /\ rows (fst sparse_result)
     = map (fun g => (Some g, resampled_row sparse_table 1 g))
           (List.filter (Qle_bool 2) (rev (fst (snd sparse_result)))).
Proof.
  apply (resample_cutoff_rows 20 sparse_table "depth" 1 (fst sparse_result)
           (fst (snd sparse_result)) 2).
  vm_compute. reflexivity.
Defined.

Lemma upto_label_length (c : Q) (rs out : list (value * list value)) :
  upto_label c rs = Some out ->
  (1 <= length out <= length rs)%nat /\ forall r, In r out -> In r rs.
Proof.
  intros H. apply upto_label_prefix in H.
  destruct H as (pre & r & rest & -> & -> & _).
  rewrite !List.length_app. cbn. split; [lia|].
  intros x Hx. apply in_or_app. now left.
Qed.

(** X18.  The table [resample] returns is indexed under the name asked
    for, has the columns of the input, one cell per column in every row, at
    least one row and at most one per grid point, and every key it holds is
    a grid point. *)
Theorem resample_shape (fuel : nat) (df : DataFrame) (by_ : string)
    (inc_amt : Q) (t : DataFrame) (grid : list Q) (end_ : option Q) :
  resample_trace fuel df by_ inc_amt = Ok (t, (grid, end_)) ->
  index_name t = Some by_
  /\ columns t = columns df
  /\ well_formed t
  /\ (1 <= length (rows t) <= length grid)%nat
  /\ (forall k, In k (keys t) -> exists g, In g grid /\ k = Some g).
Proof.
  intros Ht. apply resample_trace_inv in Ht.
  destruct Ht as (Hr & _ & rs & Hrs & ->).
  destruct (resample_range_grid fuel df inc_amt grid Hr) as (top & n & Hg & Hn & _).
  assert (Hlen : length (full_table df inc_amt grid) = length grid)
    by (rewrite full_table_map, List.length_map; apply length_rev).
  assert (Hgl : (0 < length grid)%nat)
    by (rewrite Hg, List.length_map, List.length_seq; exact Hn).
  assert (Hsub : (1 <= length rs <= length grid)%nat
                 /\ forall r, In r rs -> In r (full_table df inc_amt grid)).
  { destruct end_ as [c|]; cbn [loc_upto] in Hrs.
    - rewrite <- Hlen. now apply (upto_label_length c).
    - injection Hrs as <-. split; [lia|auto]. }
  destruct Hsub as [Hl Hsub].
  assert (Hrow : forall r, In r rs ->
                 exists g, In g grid /\ r = (Some g, resampled_row df inc_amt g)).
  { intros r Hin. apply Hsub in Hin. rewrite full_table_map in Hin.
    apply in_map_iff in Hin. destruct Hin as (g & <- & Hin).
    exists g. split; [now apply in_rev|reflexivity]. }
  cbn [index_name columns rows]. repeat split; try lia.
  - intros r Hin. cbn [rows columns] in *.
    destruct (Hrow r Hin) as (g & _ & ->). apply frame_mean_length.
  - intros k Hk. unfold keys in Hk. cbn [rows] in Hk.
    apply in_map_iff in Hk. destruct Hk as (r & <- & Hin).
    destruct (Hrow r Hin) as (g & Hgin & ->). now exists g.
Qed.

Lemma resample_shape_witness :
  index_name (fst sparse_result) = Some "depth"%string
  /\ columns (fst sparse_result) = columns sparse_table
  /\ well_formed (fst sparse_result)
  /\ (1 <= length (rows (fst sparse_result))
      <= length (fst (snd sparse_result)))%nat
  /\ (forall k, In k (keys (fst sparse_result)) ->
                exists g, In g (fst (snd sparse_result)) /\ k = Some g).
Proof.
  apply (resample_shape 20 sparse_table "depth" 1 (fst sparse_result)
           (fst (snd sparse_result)) (snd (snd sparse_result))).
  vm_compute. reflexivity.
Defined.

(** X19.  With fewer than seven empty windows nothing is cut: [resample]
    finds no cutoff and returns one row per grid point. *)
Theorem resample_few_empty_windows (fuel : nat) (df : DataFrame)
    (by_ : string) (inc_amt : Q) (grid : list Q) :
  resample_range fuel df inc_amt = Ok grid ->
  (length (empty_window_grid_points df inc_amt grid) < 7)%nat ->
  exists t,
    resample_trace fuel df by_ inc_amt = Ok (t, (grid, None))
    /\ rows t = full_table df inc_amt grid
    /\ length (rows t) = length grid.
Proof.
  intros Hr Hlen. rewrite (resample_trace_unfold _ _ _ _ _ Hr). cbv zeta.
  assert (E : stop_point_of inc_amt
                (rev (empty_window_grid_points df inc_amt grid)) = None).
  { apply stop_point_of_None. rewrite length_rev.
    assert (H := count_steps_le inc_amt
                   (rev (empty_window_grid_points df inc_amt grid))
                   (length (empty_window_grid_points df inc_amt grid) - 2)).
    lia. }
  rewrite E. cbn [loc_upto]. eexists. split; [reflexivity|]. cbn [rows].
  split; [reflexivity|].
  rewrite full_table_map, List.length_map. apply length_rev.
Qed.

Lemma resample_few_empty_windows_witness :
  exists t,
    resample_trace 20 scenario_table "depth" 2 = Ok (t, (scenario_grid, None))
    /\ rows t = full_table scenario_table 2 scenario_grid
    /\ length (rows t) = length scenario_grid.
Proof.
  apply (resample_few_empty_windows 20 scenario_table "depth" 2 scenario_grid).
  - vm_compute. reflexivity.
  - vm_compute. lia.
Defined.

Lemma filter_from_point (top : Z) (inc_amt : Q) (n m : nat) :
  0 < inc_amt -> (m <= n)%nat ->
  List.filter (Qle_bool (grid_point top inc_amt m))
              (map (grid_point top inc_amt) (seq 0 n))
  = map (grid_point top inc_amt) (seq m (n - m)).
Proof.
  intros Hinc Hm.
  replace n with (m + (n - m))%nat at 1 by lia.
  rewrite List.seq_app, map_app, List.filter_app. cbn [Nat.add].
  rewrite filter_none, filter_true; [reflexivity| |].
  - intros x Hx. apply in_map_iff in Hx. destruct Hx as (i & <- & Hi).
    apply in_seq in Hi. apply Qle_bool_iff.
    apply grid_point_le; [lra|lia].
  - intros x Hx. apply in_map_iff in Hx. destruct Hx as (i & <- & Hi).
    apply in_seq in Hi.
    destruct (Qle_bool _ _) eqn:E; [|reflexivity].
    apply Qle_bool_iff in E.
    assert (H := grid_point_lt top inc_amt i m Hinc ltac:(lia)). lra.
Qed.

(** X20.  At a positive integer increment, when every grid row is empty,
    as for a table whose data columns hold no value, and the grid has at
    least seven points, [resample] finds the cutoff at the sixth grid point
    from the top and returns exactly the six rows of the largest grid
    points. *)
Theorem resample_all_empty (fuel : nat) (df : DataFrame) (by_ : string)
    (d : Z) (grid : list Q) :
  (0 < d)%Z ->
  resample_range fuel df (inject_Z d) = Ok grid ->
  (7 <= length grid)%nat ->
  (forall r c, In r (rows df) -> nth c (snd r) None = None) ->
  exists t c,
    resample_trace fuel df by_ (inject_Z d) = Ok (t, (grid, Some c))
    /\ nth_error grid (length grid - 6) = Some c
    /\ length (rows t) = 6%nat
    /\ keys t = map Some (rev (skipn (length grid - 6) grid)).
Proof.
  intros _ Hr Hlen Hnone. set (inc_amt := inject_Z d) in *.
  assert (Hall : forall g, In g grid ->
                           all_null (resampled_row df inc_amt g) = true).
  { intros g _. apply all_null_Forall, List.Forall_forall. intros m Hm.
    apply In_nth_error in Hm. destruct Hm as [c Hm].
    apply frame_mean_nth in Hm. destruct Hm as [_ ->].
    unfold mean.
    replace (present (column c (window df g (inc_amt / 2)))) with (@nil Q);
      [reflexivity|].
    symmetry. apply present_nil_iff. intros v Hv.
    unfold column in Hv. apply in_map_iff in Hv.
    destruct Hv as (r & <- & Hin). apply Hnone.
    apply window_In in Hin. tauto. }
  destruct (resample_range_grid fuel df inc_amt grid Hr)
    as (top & n & Hg & Hn & Hinc).
  assert (Hempty : empty_window_grid_points df inc_amt grid = grid)
    by (unfold empty_window_grid_points; now apply filter_true).
  rewrite (resample_trace_unfold _ _ _ _ _ Hr). cbv zeta. rewrite Hempty.
  assert (Hn7 : (7 <= n)%nat)
    by (rewrite Hg, List.length_map, List.length_seq in Hlen; exact Hlen).
  assert (Hstop : stop_point_of inc_amt (rev grid)
                  = Some (grid_point top inc_amt (n - 6))).
  { rewrite Hg, (run_stop_point top inc_amt 0 n Hn7). reflexivity. }
  rewrite Hstop. cbn [loc_upto]. rewrite full_table_map.
  assert (Hin : In (grid_point top inc_amt (n - 6)) grid).
  { rewrite Hg. apply in_map_iff. exists (n - 6)%nat.
    split; [reflexivity|]. apply in_seq. lia. }
  rewrite upto_label_descending;
    [|apply StronglySorted_rev; eapply resample_range_sorted, Hr
     |now apply in_rev in Hin].
  assert (Hfilter : List.filter (Qle_bool (grid_point top inc_amt (n - 6)))
                      (rev grid)
                    = rev (map (grid_point top inc_amt) (seq (n - 6) 6))).
  { rewrite filter_rev. f_equal. rewrite Hg.
    rewrite (filter_from_point top inc_amt n (n - 6) Hinc ltac:(lia)).
    do 2 f_equal. lia. }
  eexists. eexists. split; [reflexivity|]. split; [|split].
  - rewrite Hg at 2. rewrite Hg, List.length_map, List.length_seq.
    apply nth_error_map_seq. split; [lia|reflexivity].
  - cbn [rows]. rewrite Hfilter.
    now rewrite List.length_map, length_rev, List.length_map, List.length_seq.
  - unfold keys. cbn [rows]. rewrite map_map. cbn [fst]. rewrite Hfilter.
    do 2 f_equal. rewrite Hg at 2. rewrite Hg, List.length_map, List.length_seq.
    rewrite skipn_map, skipn_seq. do 2 f_equal; lia.
Qed.

Lemma resample_all_empty_witness :
  exists t c,
    resample_trace 20 blank_table "depth" (inject_Z 1)
    = Ok (t, ([0; 1; 2; 3; 4; 5; 6; 7], Some c))
    /\ nth_error [0; 1; 2; 3; 4; 5; 6; 7]
                 (length [0; 1; 2; 3; 4; 5; 6; 7] - 6) = Some c
    /\ length (rows t) = 6%nat
    /\ keys t
       = map Some (rev (skipn (length [0; 1; 2; 3; 4; 5; 6; 7] - 6)
                              [0; 1; 2; 3; 4; 5; 6; 7])).
Proof.
  apply (resample_all_empty 20 blank_table "depth" 1 [0; 1; 2; 3; 4; 5; 6; 7]).
  - lia.
  - vm_compute. reflexivity.
  - cbn. lia.
  - intros r c Hr. cbn in Hr.
    repeat (destruct Hr as [<-|Hr]; [now destruct c as [|[|c]]|]).
    destruct Hr.
Defined.

(** ** The older [scripts/Resample.py] *)

Lemma scripts_resample_loop_spec (df : DataFrame) (inc : Q) :
  forall (range_list : list Z) (df_new : list (list value)),
    Scripts.resample_loop df inc range_list df_new
    = df_new ++ map (fun i => frame_mean df (window df (inject_Z i) inc))
                    range_list.
Proof.
  induction range_list as [|i rest IH]; intros df_new; cbn.
  - now rewrite app_nil_r.
  - now rewrite IH, <- app_assoc.
Qed.

(** [Scripts.resample] in terms of the table it works on. *)
Lemma scripts_resample_unfold (df : DataFrame) (inc_amt : Z) (by_ : string) :
  fst (Scripts.resample df inc_amt by_)
  = match index_min (scripts_indexed df by_),
          index_max (scripts_indexed df by_) with
    | Some lo, Some hi =>
        match Scripts.py_range (py_int lo) (py_int hi) inc_amt with
        | None => Raise ValueError
        | Some range_list =>
            Ok {| index_name := None;
                  columns := match range_list with
                             | [] => []
                             | _ :: _ => columns (scripts_indexed df by_)
                             end;
                  rows := map (fun i =>
                                 (Some (inject_Z i),
                                  frame_mean (scripts_indexed df by_)
                                    (window (scripts_indexed df by_)
                                            (inject_Z i)
                                            (inject_Z inc_amt / 2))))
                              range_list |}
        end
    | _, _ => Raise ValueError
    end.
Proof.
  unfold Scripts.resample, scripts_indexed.
  destruct (pd_set_index df by_) as [df'|];
    (destruct (index_min _) as [lo|]; [|reflexivity]);
    (destruct (index_max _) as [hi|]; [|reflexivity]);
    cbv zeta;
    (destruct (Scripts.py_range _ _ _) as [rl|]; [|reflexivity]);
    cbn [fst]; rewrite scripts_resample_loop_spec; cbn [app];
    rewrite combine_map_same; now destruct rl.
Qed.

Lemma seq_sorted (a n : nat) : StronglySorted lt (seq a n).
Proof.
  revert a. induction n as [|n IH]; intros a; cbn; constructor; [apply IH|].
  apply List.Forall_forall. intros j Hj. apply in_seq in Hj. lia.
Qed.

(** X21.  For a positive increment the table [scripts/Resample.py] returns
    is not reversed and not cut: its index has no name and its keys are the
    integers of [range(top, bot, inc_amt)] in ascending order, that is
    [top], [top + inc_amt], ... for as long as they are below [bot], one
    row for each. *)
Theorem scripts_resample_keys (df : DataFrame) (inc_amt : Z) (by_ : string)
    (t : DataFrame) :
  (0 < inc_amt)%Z ->
  fst (Scripts.resample df inc_amt by_) = Ok t ->
  index_name t = None
  /\ exists lo hi (n : nat),
       index_min (scripts_indexed df by_) = Some lo
       /\ index_max (scripts_indexed df by_) = Some hi
       /\ keys t
          = map (fun i => Some (inject_Z (py_int lo + Z.of_nat i * inc_amt)))
                (seq 0 n)
       /\ (forall i, (i < n)%nat ->
                     (py_int lo + Z.of_nat i * inc_amt < py_int hi)%Z)
       /\ (py_int hi <= py_int lo + Z.of_nat n * inc_amt)%Z
       /\ length (rows t) = n.
Proof.
  intros Hstep Ht. rewrite scripts_resample_unfold in Ht.
  destruct (index_min _) as [lo|]; [|discriminate].
  destruct (index_max _) as [hi|]; [|discriminate].
  destruct (Scripts.py_range _ _ _) as [rl|] eqn:Er; [|discriminate].
  injection Ht as <-. cbn [index_name]. split; [reflexivity|].
  destruct (py_range_pos _ _ _ _ Hstep Er) as (n & -> & Hlt & Hge & _).
  exists lo, hi, n. split; [reflexivity|]. split; [reflexivity|].
  unfold keys. cbn [rows]. rewrite !map_map. cbn [fst].
  split; [reflexivity|]. split; [exact Hlt|]. split; [exact Hge|].
  now rewrite List.length_map, List.length_seq.
Qed.

Lemma scripts_resample_keys_witness :
  exists t,
    fst (Scripts.resample scenario_raw 2 "depth") = Ok t
    /\ index_name t = None
    /\ exists lo hi (n : nat),
         index_min (scripts_indexed scenario_raw "depth") = Some lo
         /\ index_max (scripts_indexed scenario_raw "depth") = Some hi
         /\ keys t
            = map (fun i => Some (inject_Z (py_int lo + Z.of_nat i * 2)))
                  (seq 0 n)
         /\ (forall i, (i < n)%nat ->
                       (py_int lo + Z.of_nat i * 2 < py_int hi)%Z)
         /\ (py_int hi <= py_int lo + Z.of_nat n * 2)%Z
         /\ length (rows t) = n.
Proof.
  eexists. split; [vm_compute; reflexivity|].
  apply (scripts_resample_keys scenario_raw 2 "depth").
  - lia.
  - vm_compute. reflexivity.
Defined.

(** On the scenario table with increment 2 the keys are 0, 2, 4, 6, 8. *)
Example scripts_resample_scenario_keys :
  exists t,
    fst (Scripts.resample scenario_raw 2 "depth") = Ok t
    /\ keys t = [Some 0; Some 2; Some 4; Some 6; Some 8].
Proof. eexists. split; vm_compute; reflexivity. Qed.

(** X22.  When the smallest and the largest key of the table truncate to
    the same integer, as for a table of one record, [scripts/Resample.py]
    returns for every increment other than 0 a table without rows and
    without columns. *)
Theorem scripts_resample_same_integer (df : DataFrame) (inc_amt : Z)
    (by_ : string) (lo hi : Q) :
  index_min (scripts_indexed df by_) = Some lo ->
  index_max (scripts_indexed df by_) = Some hi ->
  py_int lo = py_int hi ->
  inc_amt <> 0%Z ->
  fst (Scripts.resample df inc_amt by_)
  = Ok {| index_name := None; columns := []; rows := [] |}.
Proof.
  intros Hlo Hhi Heq Hne. rewrite scripts_resample_unfold, Hlo, Hhi, Heq.
  unfold Scripts.py_range.
  destruct (Z.eqb_spec inc_amt 0) as [?|_]; [contradiction|].
  rewrite Z.ltb_irrefl. now destruct (0 <? inc_amt)%Z.
Qed.

Lemma scripts_resample_same_integer_witness :
  fst (Scripts.resample half_step_table 1 "depth")
  = Ok {| index_name := None; columns := []; rows := [] |}.
Proof.
  apply (scripts_resample_same_integer half_step_table 1 "depth" 0 (1 # 2));
    [reflexivity|reflexivity|reflexivity|lia].
Defined.

(** ** The base name of the output files *)

Lemma string_append_cons (c : ascii) (s t : string) :
  (String c s ++ t)%string = String c (s ++ t).
Proof. reflexivity. Qed.

Lemma string_append_nil_r (s : string) : (s ++ "")%string = s.
Proof.
  induction s as [|c s IH]; [reflexivity|].
  now rewrite string_append_cons, IH.
Qed.

Lemma string_append_assoc (s t u : string) :
  ((s ++ t) ++ u = s ++ (t ++ u))%string.
Proof.
  induction s as [|c s IH]; [reflexivity|].
  now rewrite !string_append_cons, IH.
Qed.

Lemma basename_from_no_slash (s : string) :
  forall acc, has_slash s = false -> basename_from acc s = (acc ++ s)%string.
Proof.
  induction s as [|c s IH]; intros acc H; cbn [basename_from has_slash] in *.
  - now rewrite string_append_nil_r.
  - apply orb_false_iff in H. destruct H as [Hc Hs].
    rewrite Hc, (IH _ Hs), string_append_assoc. reflexivity.
Qed.

Lemma basename_from_dir (dir s : string) :
  forall acc,
    basename_from acc (dir ++ String "/"%char s)%string
    = basename_from EmptyString s.
Proof.
  induction dir as [|c dir IH]; intros acc.
  - change (EmptyString ++ String "/"%char s)%string with (String "/"%char s).
    reflexivity.
  - rewrite string_append_cons. cbn [basename_from].
    destruct (Ascii.eqb c "/"%char); apply IH.
Qed.

Lemma string_length_append (s t : string) :
  String.length (s ++ t) = (String.length s + String.length t)%nat.
Proof.
  induction s as [|c s IH]; [reflexivity|].
  rewrite string_append_cons. cbn [String.length]. now rewrite IH.
Qed.

Lemma substring_prefix (s t : string) :
  substring 0 (String.length s) (s ++ t) = s.
Proof.
  induction s as [|c s IH].
  - change (EmptyString ++ t)%string with t. now destruct t.
  - rewrite string_append_cons. cbn [String.length substring].
    now rewrite IH.
Qed.

Lemma has_slash_append (s t : string) :
  has_slash (s ++ t) = has_slash s || has_slash t.
Proof.
  induction s as [|c s IH]; [reflexivity|].
  rewrite string_append_cons. cbn [has_slash]. now rewrite IH, orb_assoc.
Qed.

(** X23.  The base name of the output files is the name of the input file
    without its directories and without its last four characters: the stem
    for a [.csv] or [.txt] file, and the stem followed by a dot for an
    [.xlsx] file. *)
Theorem base_of_extension (dir stem : string) :
  has_slash stem = false ->
  base_of (dir ++ "/" ++ stem ++ ".csv") = stem
  /\ base_of (dir ++ "/" ++ stem ++ ".txt") = stem
  /\ base_of (dir ++ "/" ++ stem ++ ".xlsx") = (stem ++ ".")%string
  /\ base_of (stem ++ ".csv") = stem
  /\ base_of (stem ++ ".xlsx") = (stem ++ ".")%string.
Proof.
  intros Hs.
  assert (Hbase : forall ext, has_slash ext = false ->
            basename (dir ++ "/" ++ stem ++ ext) = (stem ++ ext)%string
            /\ basename (stem ++ ext) = (stem ++ ext)%string).
  { intros ext He. unfold basename.
    assert (Hn : basename_from EmptyString (stem ++ ext) = (stem ++ ext)%string)
      by (apply (basename_from_no_slash (stem ++ ext) EmptyString);
          now rewrite has_slash_append, Hs, He).
    split; [|exact Hn].
    etransitivity; [exact (basename_from_dir dir (stem ++ ext) EmptyString)|].
    exact Hn. }
  assert (Hcut : forall ext, String.length ext = 4%nat ->
            substring 0 (String.length (stem ++ ext) - 4) (stem ++ ext) = stem).
  { intros ext He. rewrite string_length_append, He.
    replace (String.length stem + 4 - 4)%nat with (String.length stem) by lia.
    apply substring_prefix. }
  assert (Hx : (stem ++ ".xlsx" = (stem ++ ".") ++ "xlsx")%string)
    by now rewrite string_append_assoc.
  unfold base_of.
  destruct (Hbase ".csv"%string eq_refl) as [-> ->].
  destruct (Hbase ".txt"%string eq_refl) as [-> _].
  destruct (Hbase ".xlsx"%string eq_refl) as [-> ->].
  rewrite !(Hcut ".csv"%string eq_refl), (Hcut ".txt"%string eq_refl).
  repeat split.
  - rewrite Hx, string_length_append. cbn [String.length].
    replace (String.length (stem ++ ".") + 4 - 4)%nat
      with (String.length (stem ++ ".")) by lia.
    apply substring_prefix.
  - rewrite Hx, string_length_append. cbn [String.length].
    replace (String.length (stem ++ ".") + 4 - 4)%nat
      with (String.length (stem ++ ".")) by lia.
    apply substring_prefix.
Qed.

Lemma base_of_extension_witness :
  base_of ("data" ++ "/" ++ "core" ++ ".csv") = "core"%string
  /\ base_of ("data" ++ "/" ++ "core" ++ ".txt") = "core"%string
  /\ base_of ("data" ++ "/" ++ "core" ++ ".xlsx") = ("core" ++ ".")%string
  /\ base_of ("core" ++ ".csv") = "core"%string
  /\ base_of ("core" ++ ".xlsx") = ("core" ++ ".")%string.
Proof. apply (base_of_extension "data" "core"). reflexivity. Defined.
